(** * bib_seer: citers of a bibliography, aggregated and ranked

    A shallow embedding of [bib_seer.py].  The script reads the titles of a
    BibTeX file, asks the SerpAPI Google Scholar endpoint about each title,
    follows the "cited by" link of the first hit, counts every citing paper
    it is shown, sorts the citing papers and prints them as a TSV table.

    The script is dynamically typed: what [json.loads] returns is inspected
    with [in], [[...]], [.get], [len] and truth tests, each of which raises
    on the wrong kind of value.  The embedding keeps that: a value is a
    [json], every primitive returns a [result], and an exception that the
    script does not catch ends the run. *)

From Stdlib Require Import String Ascii List ZArith Lia Bool DecimalString.
From Stdlib Require Import Sorted Permutation.
Import ListNotations.
Open Scope string_scope.
Open Scope Z_scope.

(** ** Python values and exceptions *)

(** The exceptions the script can meet.  [OSError] stands for whatever
    [open], [urlopen], [decode], [json.loads] or the BibTeX parser raise;
    [SystemExit] is what [sys.exit] raises, with the exit status. *)
Inductive exn : Type :=
| KeyError
| IndexError
| TypeError
| AttributeError
| OSError
| SystemExit (status : Z).

Inductive result (A : Type) : Type :=
| Ok (a : A)
| Raise (e : exn).
Arguments Ok {A} a.
Arguments Raise {A} e.

Definition rbind {A B} (r : result A) (k : A -> result B) : result B :=
  match r with
  | Ok a => k a
  | Raise e => Raise e
  end.

(** What [json.loads] builds.  A [str] is a [string] read as a sequence of
    code points below 256: a text with a character beyond is outside the
    model, and the properties stated of strings below are those that hold
    of the script on such texts too.  A number is an [int] (a document with
    a fractional literal is outside the model); an object is the list of
    its bindings in document order, its keys distinct as in a [dict]. *)
#[warnings="-register-all"]
Inductive json : Type :=
| JNull
| JBool (b : bool)
| JNum (n : Z)
| JStr (s : string)
| JArr (l : list json)
| JObj (o : list (string * json)).

Fixpoint lookup {V} (k : string) (o : list (string * V)) : option V :=
  match o with
  | [] => None
  | (k', v) :: o' => if String.eqb k' k then Some v else lookup k o'
  end.

Definition is_str (s : string) (v : json) : bool :=
  match v with
  | JStr s' => String.eqb s' s
  | _ => false
  end.

Definition substringb (k s : string) : bool :=
  match String.index 0 k s with
  | Some _ => true
  | None => false
  end.

Fixpoint chars (s : string) : list json :=
  match s with
  | EmptyString => []
  | String c s' => JStr (String c EmptyString) :: chars s'
  end.

(** [k in v] for a string [k]. *)
Definition py_in (k : string) (v : json) : result bool :=
  match v with
  | JObj o => Ok (match lookup k o with Some _ => true | None => false end)
  | JArr l => Ok (existsb (is_str k) l)
  | JStr s => Ok (substringb k s)
  | _ => Raise TypeError
  end.

(** [v[k]] for a string [k]. *)
Definition py_getitem (v : json) (k : string) : result json :=
  match v with
  | JObj o => match lookup k o with
              | Some x => Ok x
              | None => Raise KeyError
              end
  | _ => Raise TypeError
  end.

(** [v[0]]. *)
Definition py_first (v : json) : result json :=
  match v with
  | JArr (x :: _) => Ok x
  | JArr [] => Raise IndexError
  | JStr (String c _) => Ok (JStr (String c EmptyString))
  | JStr EmptyString => Raise IndexError
  | JObj _ => Raise KeyError
  | _ => Raise TypeError
  end.

(** [v.get(k, d)]: only a [dict] has the method. *)
Definition py_get (v : json) (k : string) (d : json) : result json :=
  match v with
  | JObj o => Ok (match lookup k o with Some x => x | None => d end)
  | _ => Raise AttributeError
  end.

(** [len(v)]. *)
Definition py_len (v : json) : result Z :=
  match v with
  | JArr l => Ok (Z.of_nat (List.length l))
  | JObj o => Ok (Z.of_nat (List.length o))
  | JStr s => Ok (Z.of_nat (String.length s))
  | _ => Raise TypeError
  end.

(** The truth value of [v], as [if v] and [v or 0] take it. *)
Definition py_truthy (v : json) : bool :=
  match v with
  | JNull => false
  | JBool b => b
  | JNum n => negb (n =? 0)
  | JStr s => negb (String.eqb s "")
  | JArr l => match l with [] => false | _ => true end
  | JObj o => match o with [] => false | _ => true end
  end.

(** The items [for x in v] goes through. *)
Definition py_iter (v : json) : result (list json) :=
  match v with
  | JArr l => Ok l
  | JObj o => Ok (map (fun kv => JStr (fst kv)) o)
  | JStr s => Ok (chars s)
  | _ => Raise TypeError
  end.

(** Whether a value can be a [dict] key. *)
Definition py_hashable (v : json) : bool :=
  match v with
  | JArr _ | JObj _ => false
  | _ => true
  end.

(** [a == b] on hashable values: [True == 1] and [False == 0]. *)
Definition py_key_eqb (a b : json) : bool :=
  match a, b with
  | JNull, JNull => true
  | JStr s, JStr t => String.eqb s t
  | JNum n, JNum m => n =? m
  | JBool x, JBool y => Bool.eqb x y
  | JBool x, JNum m => (if x then 1 else 0) =? m
  | JNum n, JBool y => n =? (if y then 1 else 0)
  | _, _ => false
  end.

Definition str_of_Z (n : Z) : string := NilZero.string_of_int (Z.to_int n).

(** ** Strings *)

Definition dquote : string := String "034"%char EmptyString.
Definition tab : string := String "009"%char EmptyString.
Definition newline : ascii := "010"%char.

Fixpoint str_map (f : ascii -> ascii) (s : string) : string :=
  match s with
  | EmptyString => EmptyString
  | String c s' => String (f c) (str_map f s')
  end.

Fixpoint str_filter (f : ascii -> bool) (s : string) : string :=
  match s with
  | EmptyString => EmptyString
  | String c s' => if f c then String c (str_filter f s') else str_filter f s'
  end.

Fixpoint str_forallb (f : ascii -> bool) (s : string) : bool :=
  match s with
  | EmptyString => true
  | String c s' => f c && str_forallb f s'
  end.

Definition between (lo hi : nat) (c : ascii) : bool :=
  let n := nat_of_ascii c in (lo <=? n)%nat && (n <=? hi)%nat.

(** [str.lower] on code points below 256: A-Z, and the Latin-1 capitals
    U+00C0..U+00DE but the multiplication sign, move up by 32.  Beyond 255
    two characters have a lowercase with an ASCII letter in it, which
    [norm_title] keeps: U+0130 (i and a combining dot) and U+212A, the
    Kelvin sign (k); no other character outside ASCII has. *)
Definition lower_char (c : ascii) : ascii :=
  if between 65 90 c || (between 192 222 c && negb (nat_of_ascii c =? 215)%nat)
  then ascii_of_nat (nat_of_ascii c + 32)
  else c.

Definition lower (s : string) : string := str_map lower_char s.

(** The character class [[0-9a-z]]. *)
Definition in_09az (c : ascii) : bool := between 48 57 c || between 97 122 c.

(** [re.sub('[^0-9a-z]+', "", s)]: every maximal run of characters outside
    the class is replaced by nothing, so the characters of the class stay,
    in their order. *)
Definition re_sub_non09az (s : string) : string := str_filter in_09az s.

(** [norm_title(title)] *)
Definition norm_title (title : string) : string := re_sub_non09az (lower title).

(** ASCII capitals for a letter, used to state case-insensitivity. *)
Definition upper_char (c : ascii) : ascii :=
  if between 97 122 c then ascii_of_nat (nat_of_ascii c - 32) else c.

(** The characters of ASCII that are neither letters nor digits:
    punctuation, the space and the controls. *)
Definition ascii_punct (c : ascii) : bool :=
  (nat_of_ascii c <? 128)%nat
  && negb (between 48 57 c || between 65 90 c || between 97 122 c).

(** Letters and digits of ASCII. *)
Definition is_alnum (c : ascii) : bool :=
  between 48 57 c || between 65 90 c || between 97 122 c.


(** ** URLs *)

Definition hex_digit (n : nat) : ascii :=
  match String.get n "0123456789ABCDEF" with
  | Some c => c
  | None => "0"%char
  end.

Definition percent (byte : nat) : string :=
  String "%" (String (hex_digit (byte / 16))
                     (String (hex_digit (byte mod 16)) EmptyString)).

(** The characters [urllib.parse.quote] never escapes. *)
Definition always_safe (c : ascii) : bool :=
  is_alnum c || existsb (Ascii.eqb c) ["_"; "."; "-"; "~"]%char.

(** [urllib.parse.quote_plus]: a space becomes [+], a safe character
    stays, any other code point is escaped byte by byte in UTF-8 (one byte
    below 128, two bytes from 128 to 255). *)
Definition quote_plus_char (c : ascii) : string :=
  let n := nat_of_ascii c in
  if Ascii.eqb c " " then "+"
  else if always_safe c then String c EmptyString
  else if (n <? 128)%nat then percent n
  else percent (192 + n / 64) ++ percent (128 + n mod 64).

Fixpoint quote_plus (s : string) : string :=
  match s with
  | EmptyString => EmptyString
  | String c s' => quote_plus_char c ++ quote_plus s'
  end.

(** [urllib.parse.urlencode] of a [dict] whose values are strings. *)
Definition urlencode (params : list (string * string)) : string :=
  String.concat "&"
    (map (fun kv => quote_plus (fst kv) ++ "=" ++ quote_plus (snd kv)) params).

(** [re.sub("q=.*", "", s)].  The pattern matches at the leftmost [q=] and
    runs to the end of the line, since [.] does not match a newline; the
    search then goes on behind the match.  [dropping] says that the scan
    is inside a match. *)
Fixpoint re_sub_q_scan (dropping : bool) (s : string) : string :=
  match s with
  | EmptyString => EmptyString
  | String c s' =>
      if dropping then
        if Ascii.eqb c newline then String c (re_sub_q_scan false s')
        else re_sub_q_scan true s'
      else
        match s' with
        | String d s'' =>
            if Ascii.eqb c "q" && Ascii.eqb d "="
            then re_sub_q_scan true s''
            else String c (re_sub_q_scan false s')
        | EmptyString => String c EmptyString
        end
  end.

Definition re_sub_q (s : string) : string := re_sub_q_scan false s.

(** ** The aggregate map *)

(** [all_citers]: a [dict] from the link of a citing paper to the pair of
    its hit count and the record last seen for it.  A [dict] keeps its keys
    in the order of their first insertion, and the ranking is a stable
    sort of its items, so the map is the list of its items in that order. *)
Definition citers : Type := list (json * (Z * json)).

(** [all_citers[k][0]], the default of the [defaultdict] being [(0, None)]. *)
Fixpoint hit_count (k : json) (m : citers) : Z :=
  match m with
  | [] => 0
  | (k', (c, _)) :: m' => if py_key_eqb k' k then c else hit_count k m'
  end.

(** [all_citers[k] = v]: the value of a key already there is replaced where
    it stands, under the key object first inserted; a new key goes last. *)
Fixpoint citers_set (k : json) (v : Z * json) (m : citers) : citers :=
  match m with
  | [] => [(k, v)]
  | (k', v') :: m' =>
      if py_key_eqb k' k then (k', v) :: m' else (k', v') :: citers_set k v m'
  end.

(** The stable sort of [list.sort(key=..., reverse=True)], on items already
    paired with their keys: an item goes behind the items of a greater key
    and in front of those of an equal or smaller key that followed it. *)
Fixpoint insert_desc {A} (x : Z * A) (l : list (Z * A)) : list (Z * A) :=
  match l with
  | [] => [x]
  | y :: l' => if fst x <? fst y then y :: insert_desc x l' else x :: l
  end.

Fixpoint sort_desc {A} (l : list (Z * A)) : list (Z * A) :=
  match l with
  | [] => []
  | x :: l' => insert_desc x (sort_desc l')
  end.

Fixpoint rmap {A B} (f : A -> result B) (l : list A) : result (list B) :=
  match l with
  | [] => Ok []
  | x :: l' =>
      rbind (f x) (fun y => rbind (rmap f l') (fun ys => Ok (y :: ys)))
  end.

Fixpoint rfold {A S} (f : S -> A -> result S) (s : S) (l : list A) : result S :=
  match l with
  | [] => Ok s
  | x :: l' => rbind (f s x) (fun s' => rfold f s' l')
  end.

(** ** The run: standard output, requests and files *)

(** What a run leaves behind, each in the order of the events: the lines
    printed, the URLs handed to [urlopen] and the files opened with [open].
    What [urlopen] does for a URL is not part of the world: a URL of the
    scheme [file] makes it read a local file, and that is an entry of
    [requests], not of [opened]. *)
Record world : Type := mkWorld {
  stdout : list string;
  requests : list string;
  opened : list string
}.

(** A computation reads and extends the world and returns or raises. *)
Definition M (A : Type) : Type := world -> world * result A.

Definition ret {A} (a : A) : M A := fun w => (w, Ok a).

Definition bind {A B} (c : M A) (k : A -> M B) : M B :=
  fun w =>
    match c w with
    | (w', Ok a) => k a w'
    | (w', Raise e) => (w', Raise e)
    end.

Definition lift {A} (r : result A) : M A := fun w => (w, r).

Definition raise {A} (e : exn) : M A := lift (Raise e).

Declare Scope run_scope.
Delimit Scope run_scope with run.
Notation "x <- c ;; k" := (bind c (fun x => k))
  (at level 61, c at next level, right associativity) : run_scope.
Notation "c ;; k" := (bind c (fun _ => k))
  (at level 61, right associativity) : run_scope.
Notation "x <~ r ;; k" := (rbind r (fun x => k))
  (at level 61, r at next level, right associativity) : run_scope.
Open Scope run_scope.

Definition print (line : string) : M unit :=
  fun w => (mkWorld (stdout w ++ [line]) (requests w) (opened w), Ok tt).

Fixpoint for_each {A} (l : list A) (body : A -> M unit) : M unit :=
  match l with
  | [] => ret tt
  | x :: l' => body x ;; for_each l' body
  end.

Fixpoint fold_run {A S} (body : S -> A -> M S) (s : S) (l : list A) : M S :=
  match l with
  | [] => ret s
  | x :: l' => s' <- body s x ;; fold_run body s' l'
  end.

(** The status the process ends with: 0 when the script runs to its end,
    the argument of [sys.exit] (0 when it has none), 1 on any other
    exception. *)
Definition exit_status (r : result unit) : Z :=
  match r with
  | Ok _ => 0
  | Raise (SystemExit n) => n
  | Raise _ => 1
  end.

Definition set_mem (x : string) (s : list string) : bool :=
  existsb (String.eqb x) s.

(** ** The script *)

Definition SERP_API_URL : string := "https://serpapi.com/search".

(** [get_cited_by(paper)] *)
Definition get_cited_by (paper : json) : result json :=
  inline_links <~ py_get paper "inline_links" (JObj []) ;;
  py_get inline_links "cited_by" (JObj []).

(** [x or 0] *)
Definition or_0 (x : json) : json := if py_truthy x then x else JNum 0.

(** [get_cited_by(paper).get("total") or 0] *)
Definition total_or_0 (paper : json) : result json :=
  cited_by <~ get_cited_by paper ;;
  total <~ py_get cited_by "total" JNull ;;
  Ok (or_0 total).

(** The number a value is in [1e6 * count + v] and under [%d]. *)
Definition py_number (v : json) : result Z :=
  match v with
  | JNum n => Ok n
  | JBool b => Ok (if b then 1 else 0)
  | _ => Raise TypeError
  end.

Section Script.

(** [os.getenv("SERP_API_KEY")]: [None] when the variable is not set. *)
Variable SERP_API_KEY : option string.

(** The search service: the document that [urlopen(url)], read, decoded and
    parsed, yields (or the exception of any of these steps), given the
    requests made before. *)
Variable serpapi : list string -> string -> result json.

(** The BibTeX parser on the named file: for each entry of the database,
    in order, its [title] field when it has one; or the exception of
    [open] or of the parser. *)
Variable pybtex_titles : string -> result (list (option string)).

(** [str(v)] and [repr(v)] of a list or an object. *)
Variable py_repr : json -> string.

(** [str(v)], what [%s] prints. *)
Definition py_str (v : json) : string :=
  match v with
  | JStr s => s
  | JNull => "None"
  | JBool true => "True"
  | JBool false => "False"
  | JNum n => str_of_Z n
  | _ => py_repr v
  end.

Definition str_of_key : string :=
  match SERP_API_KEY with
  | Some k => k
  | None => "None"
  end.

Definition urlopen_json (url : string) : M json :=
  fun w => (mkWorld (stdout w) (requests w ++ [url]) (opened w),
            serpapi (requests w) url).

(** [get_titles_from_bibtex(filename)] *)
Definition get_titles_from_bibtex (filename : string) : M (list string) :=
  fun w =>
    (mkWorld (stdout w) (requests w) (opened w ++ [filename]),
     entries <~ pybtex_titles filename ;;
     Ok (flat_map (fun e => match e with Some t => [t] | None => [] end)
                  entries)).

(** The body of [for res2 in cite_res["organic_results"]]. *)
Definition count_citer (all_citers : citers) (res2 : json) : result citers :=
  has_link <~ py_in "link" res2 ;;
  paper_link <~ (if has_link : bool then py_getitem res2 "link"
                 else result_id <~ py_getitem res2 "result_id" ;;
                      Ok (JStr ("No link found (id: " ++ py_str result_id ++ ")"))) ;;
  if py_hashable paper_link
  then Ok (citers_set paper_link (hit_count paper_link all_citers + 1, res2)
                      all_citers)
  else Raise TypeError.

(** The rewriting of the link: [re.sub("q=.*", "", cited_by_link) +
    "&api_key=" + SERP_API_KEY]. *)
Definition rewrite_link (cited_by_link : json) : result string :=
  match cited_by_link, SERP_API_KEY with
  | JStr s, Some key => Ok (re_sub_q s ++ "&api_key=" ++ key)
  | _, _ => Raise TypeError
  end.

(** [api_url] for a title: the exact-phrase query, URL-encoded. *)
Definition api_url (title : string) : string :=
  let api_params := [("api_key", str_of_key);
                     ("engine", "google_scholar");
                     ("q", dquote ++ title ++ dquote)] in
  SERP_API_URL ++ "?" ++ urlencode api_params.

(** The body of [for title in titles[:100000]]. *)
Definition citers_of_title (all_citers : citers) (title : string) : M citers :=
  res <- urlopen_json (api_url title) ;;
  has <- lift (py_in "organic_results" res) ;;
  nonempty <- lift (if has : bool
                    then results <~ py_getitem res "organic_results" ;;
                         n <~ py_len results ;;
                         Ok (0 <? n)
                    else Ok false) ;;
  if nonempty : bool then
    first_result <- lift (results <~ py_getitem res "organic_results" ;;
                          py_first results) ;;
    cited_by <- lift (get_cited_by first_result) ;;
    if py_truthy cited_by then
      cited_by_link <- lift (cited_by <~ get_cited_by first_result ;;
                             py_getitem cited_by "serpapi_scholar_link") ;;
      cited_by_link <- lift (rewrite_link cited_by_link) ;;
      print cited_by_link ;;
      cite_res <- urlopen_json cited_by_link ;;
      has2 <- lift (py_in "organic_results" cite_res) ;;
      if has2 : bool then
        lift (results <~ py_getitem cite_res "organic_results" ;;
              entries <~ py_iter results ;;
              rfold count_citer all_citers entries)
      else ret all_citers
    else ret all_citers
  else ret all_citers.

(** What the first response leads to (lines 54 to 59 of the script): the
    rewritten cited-by link of its first result, [None] when the title is
    passed over, or the exception raised on the way. *)
Definition follow_up_link (res : json) : result (option string) :=
  has <~ py_in "organic_results" res ;;
  nonempty <~ (if has : bool
               then results <~ py_getitem res "organic_results" ;;
                    n <~ py_len results ;;
                    Ok (0 <? n)
               else Ok false) ;;
  if nonempty : bool then
    first_result <~ (results <~ py_getitem res "organic_results" ;;
                     py_first results) ;;
    cited_by <~ get_cited_by first_result ;;
    if py_truthy cited_by then
      cited_by_link <~ py_getitem cited_by "serpapi_scholar_link" ;;
      cited_by_link <~ rewrite_link cited_by_link ;;
      Ok (Some cited_by_link)
    else Ok None
  else Ok None.

(** What the second response adds to the map (lines 64 to 70). *)
Definition count_citers (all_citers : citers) (cite_res : json)
  : result citers :=
  has2 <~ py_in "organic_results" cite_res ;;
  if has2 : bool then
    results <~ py_getitem cite_res "organic_results" ;;
    entries <~ py_iter results ;;
    rfold count_citer all_citers entries
  else Ok all_citers.

(** The sort key [1e6 * x[1][0] + (get_cited_by(x[1][1]).get("total") or 0)].
    The key is a float; it is the integer below as long as the count, the
    total, the product and the sum are at most 2^53 in absolute value
    ([float_exact] below).  Beyond, the float is rounded, so that two keys
    can tie where the integers differ, and a total of 2^1024 or more raises
    [OverflowError]: neither is modelled, and what is stated of the order
    of the ranking is stated within these bounds. *)
Definition sort_key (x : json * (Z * json)) : result Z :=
  total <~ total_or_0 (snd (snd x)) ;;
  t <~ py_number total ;;
  Ok (1000000 * fst (snd x) + t).

(** [list(all_citers.items())] sorted: the keys are computed for all items
    first, in order, then the items are sorted. *)
Definition rank (all_citers : citers) : result (list (json * (Z * json))) :=
  keyed <~ rmap (fun x => k <~ sort_key x ;; Ok (k, x)) all_citers ;;
  Ok (map snd (sort_desc keyed)).

(** [titles[:100000]] *)
Definition title_limit : nat := Z.to_nat 100000.

(** [find_citers_from_titles(titles)] *)
Definition find_citers_from_titles (titles : list string)
  : M (list (json * (Z * json))) :=
  all_citers <- fold_run citers_of_title [] (firstn title_limit titles) ;;
  lift (rank all_citers).

Definition usage (prog : string) : string :=
  "Usage:  " ++ prog ++ " <bibtex_file>".

Definition header : string :=
  String.concat tab ["Num bib articles cited"; "Num citations received";
                     "Link"; "Title"].

(** [title.lower()] needs a [str]. *)
Definition py_norm_title (title : json) : result string :=
  match title with
  | JStr s => Ok (norm_title s)
  | _ => Raise AttributeError
  end.

(** ["%d\t%d\t%s\t%s" % (count, total, link, title)] *)
Definition row (count : Z) (total link title : json) : result string :=
  t <~ py_number total ;;
  Ok (str_of_Z count ++ tab ++ str_of_Z t ++ tab ++ py_str link ++ tab
      ++ py_str title).

(** The body of [for (link, (count, paper_info)) in all_citers_list]. *)
Definition report_entry (norm_titles : list string)
  (entry : json * (Z * json)) : M unit :=
  let '(link, (count, paper_info)) := entry in
  title <- lift (py_get paper_info "title" (JStr "")) ;;
  nt <- lift (py_norm_title title) ;;
  if negb (set_mem nt norm_titles) then
    line <- lift (total <~ total_or_0 paper_info ;;
                  row count total link title) ;;
    print line
  else ret tt.

(** The report: the header, then the entries. *)
Definition report (norm_titles : list string)
  (all_citers_list : list (json * (Z * json))) : M unit :=
  print header ;;
  for_each all_citers_list (report_entry norm_titles).

(** The script run as a program: [sys.argv] is [prog :: args]. *)
Definition main (prog : string) (args : list string) : M unit :=
  let argv := prog :: args in
  if negb (Nat.eqb (List.length argv) 2) then
    print (usage prog) ;;
    raise (SystemExit 0)
  else
    filename <- lift (match nth_error argv 1 with
                      | Some a => Ok a
                      | None => Raise IndexError
                      end) ;;
    titles <- get_titles_from_bibtex filename ;;
    let norm_titles := map norm_title titles in
    all_citers_list <- find_citers_from_titles titles ;;
    report norm_titles all_citers_list.


(** ** Notions used to state the properties *)

(** Whether [q=] occurs in a string. *)
Fixpoint occurs_q (s : string) : bool :=
  match s with
  | EmptyString => false
  | String c s' =>
      match s' with
      | String d _ => (Ascii.eqb c "q" && Ascii.eqb d "=") || occurs_q s'
      | EmptyString => false
      end
  end.

Definition one_line (s : string) : bool :=
  str_forallb (fun c => negb (Ascii.eqb c newline)) s.

(** The pieces of a string between the occurrences of a separator. *)
Fixpoint split_on (sep : ascii) (s : string) : list string :=
  match s with
  | EmptyString => [EmptyString]
  | String c s' =>
      if Ascii.eqb c sep then EmptyString :: split_on sep s'
      else match split_on sep s' with
           | piece :: pieces => String c piece :: pieces
           | [] => [String c EmptyString]
           end
  end.

(** The query parameters of a URL: what follows the first [?], cut at
    every [&]. *)
Definition query_params (url : string) : list string :=
  match split_on "?" url with
  | _ :: query :: _ => split_on "&" query
  | _ => []
  end.

(** The key under which an entry without a link is counted. *)
Definition no_link_key (id : string) : json :=
  JStr ("No link found (id: " ++ id ++ ")").

(** The report, as a table. *)

(** The title of a record as the report reads it: the empty string when
    the record has no [title], the title when it is a string. *)
Definition title_text (paper_info : json) : option string :=
  match paper_info with
  | JObj o =>
      match lookup "title" o with
      | None => Some EmptyString
      | Some (JStr t) => Some t
      | Some _ => None
      end
  | _ => None
  end.

(** The total-citation count of a record, 0 when it has none (and when
    it cannot be read as a number). *)
Definition total_citations (paper_info : json) : Z :=
  match rbind (total_or_0 paper_info) py_number with
  | Ok n => n
  | Raise _ => 0
  end.

(** Whether the report keeps an entry: its normalized title is not one of
    the normalized titles of the bibliography. *)
Definition kept (norm_titles : list string) (entry : json * (Z * json)) : bool :=
  match title_text (snd (snd entry)) with
  | Some t => negb (set_mem (norm_title t) norm_titles)
  | None => false
  end.

(** The line of an entry: hit count, total citations, link and title,
    separated by tabs. *)
Definition row_text (entry : json * (Z * json)) : string :=
  str_of_Z (fst (snd entry)) ++ tab
  ++ str_of_Z (total_citations (snd (snd entry))) ++ tab
  ++ py_str (fst entry) ++ tab
  ++ match title_text (snd (snd entry)) with
     | Some t => t
     | None => EmptyString
     end.

(** The pair an entry is ranked by, and the lexicographic order on such
    pairs. *)
Definition hits_and_total (entry : json * (Z * json)) : Z * Z :=
  (fst (snd entry), total_citations (snd (snd entry))).

Definition lex_ge (a b : Z * Z) : Prop :=
  fst b < fst a \/ (fst a = fst b /\ snd b <= snd a).

(** The number an entry is sorted by. *)
Definition composite_key (entry : json * (Z * json)) : Z :=
  1000000 * fst (snd entry) + total_citations (snd (snd entry)).

(** An entry whose sort key the float arithmetic of line 74 computes
    exactly: the integers up to 2^53 = 9007199254740992 in absolute value
    are floats, and here the count times a million, the total and their sum
    are such integers. *)
Definition float_exact (entry : json * (Z * json)) : Prop :=
  Z.abs (1000000 * fst (snd entry)) <= 9007199254740992 /\
  Z.abs (total_citations (snd (snd entry))) <= 9007199254740992 /\
  Z.abs (composite_key entry) <= 9007199254740992.

(** The key an entry of a follow-up response is counted under: the
    [paper_link] of line 67 or 69. *)
Definition entry_key (res2 : json) : result json :=
  has_link <~ py_in "link" res2 ;;
  if has_link : bool then py_getitem res2 "link"
  else result_id <~ py_getitem res2 "result_id" ;;
       Ok (no_link_key (py_str result_id)).

(** Whether an entry is counted under a key equal to [k]. *)
Definition touches (k : json) (res2 : json) : bool :=
  match entry_key res2 with
  | Ok k' => py_key_eqb k' k
  | Raise _ => false
  end.

(** No two entries of a page are counted under the same key. *)
Fixpoint distinct_keys (entries : list json) : bool :=
  match entries with
  | [] => true
  | e :: rest =>
      match entry_key e with
      | Ok k => negb (existsb (touches k) rest)
      | Raise _ => true
      end && distinct_keys rest
  end.

(** The entries of a response, as the inner loop goes through them. *)
Definition page_entries (doc : json) : result (list json) :=
  results <~ py_getitem doc "organic_results" ;;
  py_iter results.

(** The invariant of the map as a [dict]: every key is hashable and no
    two keys are equal. *)
Fixpoint citers_wf (m : citers) : Prop :=
  match m with
  | [] => True
  | (k, _) :: m' =>
      py_key_eqb k k = true /\
      (forall e, In e m' -> py_key_eqb k (fst e) = false) /\
      citers_wf m'
  end.

(** The characters a quoted string is made of: the unreserved ones, [+]
    for a space and [%] with its two hexadecimal digits. *)
Definition url_safe (c : ascii) : bool :=
  always_safe c || Ascii.eqb c "+" || Ascii.eqb c "%".

(** The first character of a string, if any. *)
Definition first_char (s : string) : option ascii :=
  match s with
  | EmptyString => None
  | String c _ => Some c
  end.

(** ** Sample data *)

(** A service that answers from a table of URLs and refuses any other. *)
Definition table_service (table : list (string * json))
  : list string -> string -> result json :=
  fun _ url =>
    match lookup url table with
    | Some doc => Ok doc
    | None => Raise OSError
    end.

Definition no_repr : json -> string := fun _ => "".

Definition empty_world : world := mkWorld [] [] [].

Definition attention_url : string :=
  "https://serpapi.com/search?api_key=K&engine=google_scholar&q=%22Attention+Is+All+You+Need%22".

Definition cites_link : string :=
  "https://serpapi.com/search.json?cites=1&engine=google_scholar&hl=en".

(** A first-stage document whose first result has a cited-by reference. *)
Definition hit_with_link (link : string) (total : Z) : json :=
  JObj [("organic_results",
         JArr [JObj [("title", JStr "Attention Is All You Need");
                     ("inline_links",
                      JObj [("cited_by",
                             JObj [("total", JNum total);
                                   ("serpapi_scholar_link", JStr link)])])]])].

Definition paper (link title : string) (total : option Z) : json :=
  JObj ([("link", JStr link); ("title", JStr title)] ++
        match total with
        | Some n => [("inline_links", JObj [("cited_by", JObj [("total", JNum n)])])]
        | None => []
        end).

Definition foo_bar : json :=
  JObj [("organic_results",
         JArr [paper "a.com" "Foo" None; paper "b.com" "Bar" (Some 5)])].

Definition scenario1 : list string -> string -> result json :=
  table_service [(attention_url, hit_with_link cites_link 2);
                 (cites_link ++ "&api_key=K", foo_bar)].

Definition t_url : string :=
  "https://serpapi.com/search?api_key=K&engine=google_scholar&q=%22T%22".

(** A service with nothing to say about the title [T]. *)
Definition nothing_found : list string -> string -> result json :=
  table_service [(t_url, JObj [("search_information", JObj [])])].

(** A service whose follow-up answer has no results. *)
Definition nothing_cites : list string -> string -> result json :=
  table_service [(t_url, hit_with_link cites_link 0);
                 (cites_link ++ "&api_key=K", JObj [("error", JStr "none")])].

(** A follow-up link with a search term in the middle of its query. *)
Definition link_with_q : string :=
  "https://serpapi.com/search.json?cites=1&q=x&start=10".

(** A follow-up answer with an entry that has neither [link] nor
    [result_id]. *)
Definition anonymous_entry : list string -> string -> result json :=
  table_service
    [(t_url, hit_with_link cites_link 1);
     (cites_link ++ "&api_key=K",
      JObj [("organic_results", JArr [JObj [("title", JStr "Baz")]])])].


Definition u_url : string :=
  "https://serpapi.com/search?api_key=K&engine=google_scholar&q=%22U%22".

Definition cites_link_2 : string :=
  "https://serpapi.com/search.json?cites=2&engine=google_scholar&hl=en".

(** Two titles; a paper with two million citations cites the first, a
    paper without a citation count cites both. *)
Definition two_million : list string -> string -> result json :=
  table_service
    [(t_url, hit_with_link cites_link 7);
     (cites_link ++ "&api_key=K",
      JObj [("organic_results",
             JArr [paper "a.com" "Survey" (Some 2000000);
                   paper "b.com" "Note" None])]);
     (u_url, hit_with_link cites_link_2 3);
     (cites_link_2 ++ "&api_key=K",
      JObj [("organic_results", JArr [paper "b.com" "Note" None])])].

(** One title; the follow-up answer lists the same link twice. *)
Definition listed_twice : list string -> string -> result json :=
  table_service
    [(t_url, hit_with_link cites_link 2);
     (cites_link ++ "&api_key=K",
      JObj [("organic_results",
             JArr [paper "a.com" "Foo" None;
                   paper "a.com" "Foo (preprint)" None])])].

(** An entry known by its [result_id] only. *)
Definition entry_abc123 : list (string * json) :=
  [("title", JStr "Qux"); ("result_id", JStr "abc123")].

(** The cited paper comes back among its citers, in another spelling. *)
Definition rediscovered : list string -> string -> result json :=
  table_service
    [(attention_url, hit_with_link cites_link 2);
     (cites_link ++ "&api_key=K",
      JObj [("organic_results",
             JArr [paper "c.org" "ATTENTION is all you need." (Some 9);
                   paper "b.com" "Bar" (Some 5);
                   JObj entry_abc123])])].

(** The map after the one title of [scenario1], and its ranking. *)
Definition foo_then_bar : citers :=
  [(JStr "a.com", (1, paper "a.com" "Foo" None));
   (JStr "b.com", (1, paper "b.com" "Bar" (Some 5)))].

Definition bar_then_foo : list (json * (Z * json)) :=
  [(JStr "b.com", (1, paper "b.com" "Bar" (Some 5)));
   (JStr "a.com", (1, paper "a.com" "Foo" None))].

Definition after_scenario1 : world :=
  mkWorld [cites_link ++ "&api_key=K"]
          [attention_url; cites_link ++ "&api_key=K"] [].

(** The run of the program on [rediscovered]. *)
Definition after_rediscovered : world :=
  mkWorld [cites_link ++ "&api_key=K"]
          [attention_url; cites_link ++ "&api_key=K"] ["refs.bib"].

Definition rediscovered_ranked : list (json * (Z * json)) :=
  [(JStr "c.org", (1, paper "c.org" "ATTENTION is all you need." (Some 9)));
   (JStr "b.com", (1, paper "b.com" "Bar" (Some 5)));
   (JStr "No link found (id: abc123)", (1, JObj entry_abc123))].

(** A service that finds nothing, whatever it is asked. *)
Definition finds_nothing : list string -> string -> result json :=
  fun _ _ => Ok (JObj [("search_information", JObj [])]).
(** ** The normalizer *)

Lemma in_09az_lower_fix c : in_09az c = true -> lower_char c = c.
Proof.
  destruct c as [[] [] [] [] [] [] [] []]; vm_compute; intros H;
    first [reflexivity | discriminate H].
Qed.

Lemma lower_char_upper c : lower_char (upper_char c) = lower_char c.
Proof. destruct c as [[] [] [] [] [] [] [] []]; reflexivity. Qed.

Lemma lower_char_idem c : lower_char (lower_char c) = lower_char c.
Proof. destruct c as [[] [] [] [] [] [] [] []]; reflexivity. Qed.

Lemma in_09az_lower_alnum c : in_09az (lower_char c) = is_alnum c.
Proof. destruct c as [[] [] [] [] [] [] [] []]; reflexivity. Qed.

Lemma str_filter_forallb f s : str_forallb f (str_filter f s) = true.
Proof.
  induction s as [|c s IH]; cbn [str_filter str_forallb]; [reflexivity|].
  destruct (f c) eqn:E; cbn [str_forallb]; [rewrite E|]; exact IH.
Qed.

Lemma str_filter_id f s : str_forallb f s = true -> str_filter f s = s.
Proof.
  induction s as [|c s IH]; cbn [str_filter str_forallb]; [reflexivity|].
  intros H. apply andb_prop in H as [Hc Hs]. rewrite Hc, IH by exact Hs.
  reflexivity.
Qed.

Lemma lower_fix s : str_forallb in_09az s = true -> lower s = s.
Proof.
  unfold lower. induction s as [|c s IH]; cbn [str_map str_forallb];
    [reflexivity|].
  intros H. apply andb_prop in H as [Hc Hs].
  rewrite in_09az_lower_fix, IH by assumption. reflexivity.
Qed.

Lemma alnum_not_punct c : is_alnum c = true -> ascii_punct c = false.
Proof.
  unfold ascii_punct, is_alnum. intros ->. apply andb_false_r.
Qed.

Lemma norm_title_class s : str_forallb in_09az (norm_title s) = true.
Proof. apply str_filter_forallb. Qed.

Lemma norm_title_as_filter s :
  norm_title s = lower (str_filter is_alnum s).
Proof.
  unfold norm_title, re_sub_non09az, lower.
  induction s as [|c s IH]; cbn [str_map str_filter]; [reflexivity|].
  rewrite in_09az_lower_alnum. destruct (is_alnum c); cbn [str_map];
    rewrite IH; reflexivity.
Qed.

(** C5.  [norm_title] is a function defined on every string; applying it
    twice is applying it once; its result has only characters of
    [[0-9a-z]]; it does not see case (the string in capitals, or lowered,
    has the same normal form) nor punctuation (the string without its
    ASCII characters that are neither letters nor digits has the same
    normal form), as in
    [norm_title("Deep Learning!") == norm_title("deep learning")]. *)
Theorem norm_title_idempotent_insensitive :
  (forall s, norm_title (norm_title s) = norm_title s) /\
  (forall s, str_forallb in_09az (norm_title s) = true) /\
  (forall s, norm_title (str_map upper_char s) = norm_title s) /\
  (forall s, norm_title (lower s) = norm_title s) /\
  (forall s, norm_title (str_filter (fun c => negb (ascii_punct c)) s) =
             norm_title s) /\
  norm_title "Deep Learning!" = norm_title "deep learning" /\
  norm_title "Deep Learning!" = "deeplearning".
Proof.
  split; [|split; [|split; [|split; [|split; [|split]]]]].
  - intros s. unfold norm_title at 1.
    rewrite lower_fix by apply norm_title_class.
    apply str_filter_id, norm_title_class.
  - apply norm_title_class.
  - intros s. unfold norm_title, lower. f_equal.
    induction s as [|c s IH]; cbn [str_map]; [reflexivity|].
    rewrite lower_char_upper, IH. reflexivity.
  - intros s. unfold norm_title, lower. f_equal.
    induction s as [|c s IH]; cbn [str_map]; [reflexivity|].
    rewrite lower_char_idem, IH. reflexivity.
  - intros s. rewrite !norm_title_as_filter. f_equal.
    induction s as [|c s IH]; cbn [str_filter]; [reflexivity|].
    destruct (is_alnum c) eqn:E.
    + rewrite (alnum_not_punct _ E). cbn [negb str_filter].
      rewrite E, IH. reflexivity.
    + destruct (ascii_punct c); cbn [negb str_filter]; [exact IH|].
      rewrite E. exact IH.
  - reflexivity.
  - reflexivity.
Qed.

(** ** The aggregator, one title at a time *)

(** [citers_of_title] in two stages: the first response decides on a
    follow-up link, the second response is folded into the map. *)
Lemma citers_of_title_stages all_citers title :
  forall w,
  citers_of_title all_citers title w =
  (res <- urlopen_json (api_url title) ;;
   link <- lift (follow_up_link res) ;;
   match link with
   | Some cited_by_link =>
       print cited_by_link ;;
       cite_res <- urlopen_json cited_by_link ;;
       lift (count_citers all_citers cite_res)
   | None => ret all_citers
   end) w.
Proof.
  intros w. unfold citers_of_title, follow_up_link, count_citers, bind, lift, ret.
  destruct (urlopen_json (api_url title) w) as [w1 [res|e]]; [|reflexivity].
  destruct (py_in "organic_results" res) as [has|e]; [|reflexivity]. simpl.
  destruct (if has then _ else _) as [[|]|e]; simpl; try reflexivity.
  destruct (rbind (py_getitem res "organic_results") _) as [first|e]; simpl;
    [|reflexivity].
  destruct (get_cited_by first) as [cb|e]; simpl; [|reflexivity].
  destruct (py_truthy cb); simpl; [|reflexivity].
  destruct (py_getitem cb "serpapi_scholar_link") as [l|e]; simpl;
    [|reflexivity].
  destruct (rewrite_link l) as [l'|e]; simpl; [|reflexivity].
  destruct (serpapi _ l') as [cite|e]; [|reflexivity].
  destruct (py_in "organic_results" cite) as [[|]|e]; reflexivity.
Qed.

Lemma py_in_absent k o : lookup k o = None -> py_in k (JObj o) = Ok false.
Proof. intros H. unfold py_in. rewrite H. reflexivity. Qed.

Lemma follow_up_link_absent o :
  lookup "organic_results" o = None -> follow_up_link (JObj o) = Ok None.
Proof.
  intros H. unfold follow_up_link. rewrite (py_in_absent _ _ H). reflexivity.
Qed.

Lemma count_citers_absent all_citers o :
  lookup "organic_results" o = None ->
  count_citers all_citers (JObj o) = Ok all_citers.
Proof.
  intros H. unfold count_citers. rewrite (py_in_absent _ _ H). reflexivity.
Qed.

(** A title that is passed over after the first response. *)
Lemma citers_of_title_passed_over all_citers title w res :
  serpapi (requests w) (api_url title) = Ok res ->
  follow_up_link res = Ok None ->
  citers_of_title all_citers title w =
  (mkWorld (stdout w) (requests w ++ [api_url title]) (opened w),
   Ok all_citers).
Proof.
  intros Hres Hlink. rewrite citers_of_title_stages.
  unfold bind, urlopen_json, lift. rewrite Hres, Hlink. reflexivity.
Qed.

(** A title whose follow-up request is answered. *)
Lemma citers_of_title_followed all_citers title w res link cite_res :
  serpapi (requests w) (api_url title) = Ok res ->
  follow_up_link res = Ok (Some link) ->
  serpapi (requests w ++ [api_url title]) link = Ok cite_res ->
  citers_of_title all_citers title w =
  (mkWorld (stdout w ++ [link]) (requests w ++ [api_url title; link])
           (opened w),
   count_citers all_citers cite_res).
Proof.
  intros Hres Hlink Hcite. rewrite citers_of_title_stages.
  unfold bind, urlopen_json, lift, print. rewrite Hres, Hlink. simpl.
  rewrite Hcite, <- app_assoc. reflexivity.
Qed.

(** C7.  A title whose first response is an object without the key
    [organic_results], or whose follow-up response is such an object,
    leaves the aggregate map as it was, and the step returns: no exception
    is raised. *)
Theorem no_organic_results_no_entries all_citers title w :
  (forall o,
      serpapi (requests w) (api_url title) = Ok (JObj o) ->
      lookup "organic_results" o = None ->
      citers_of_title all_citers title w =
      (mkWorld (stdout w) (requests w ++ [api_url title]) (opened w),
       Ok all_citers)) /\
  (forall res link o2,
      serpapi (requests w) (api_url title) = Ok res ->
      follow_up_link res = Ok (Some link) ->
      serpapi (requests w ++ [api_url title]) link = Ok (JObj o2) ->
      lookup "organic_results" o2 = None ->
      citers_of_title all_citers title w =
      (mkWorld (stdout w ++ [link]) (requests w ++ [api_url title; link])
               (opened w),
       Ok all_citers)).
Proof.
  split.
  - intros o Hres Habs.
    apply (citers_of_title_passed_over _ _ _ _ Hres).
    apply follow_up_link_absent, Habs.
  - intros res link o2 Hres Hlink Hcite Habs.
    rewrite (citers_of_title_followed _ _ _ _ _ _ Hres Hlink Hcite).
    rewrite (count_citers_absent _ _ Habs). reflexivity.
Qed.

(** ** The command line *)

(** C8.  With a number of arguments other than one, the program prints
    the usage line and leaves through [sys.exit()], status 0; it has
    opened no file and made no request. *)
Theorem usage_when_not_one_argument prog args w :
  List.length args <> 1%nat ->
  main prog args w =
  (mkWorld (stdout w ++ [usage prog]) (requests w) (opened w),
   Raise (SystemExit 0)) /\
  exit_status (snd (main prog args w)) = 0.
Proof.
  intros Hlen.
  assert (E : main prog args w =
              (mkWorld (stdout w ++ [usage prog]) (requests w) (opened w),
               Raise (SystemExit 0))).
  { unfold main. cbn [List.length].
    destruct (Nat.eqb_spec (S (List.length args)) 2) as [H2|_].
    - exfalso. apply Hlen. lia.
    - reflexivity. }
  rewrite E. split; reflexivity.
Qed.

(** ** The limit on the titles *)

(** C9.  The aggregator goes through [titles[:100000]] only: its run on a
    list is its run on the first 100000 titles of the list, and titles put
    behind 100000 others change nothing. *)
Theorem only_first_100000_titles :
  Z.of_nat title_limit = 100000 /\
  (forall titles,
      find_citers_from_titles titles =
      find_citers_from_titles (firstn title_limit titles)) /\
  (forall kept ignored,
      List.length kept = title_limit ->
      find_citers_from_titles (kept ++ ignored) =
      find_citers_from_titles kept).
Proof.
  split; [|split].
  - unfold title_limit. rewrite Z2Nat.id; lia.
  - intros titles. unfold find_citers_from_titles.
    rewrite firstn_firstn, Nat.min_id. reflexivity.
  - intros kept ignored Hlen. unfold find_citers_from_titles.
    replace (firstn title_limit (kept ++ ignored))
      with (firstn title_limit kept); [reflexivity|].
    rewrite <- Hlen, firstn_app, Nat.sub_diag, firstn_all. cbn [firstn].
    rewrite app_nil_r. reflexivity.
Qed.

(** ** The cited-by section of a paper *)


(** X20.  Outside the records: an [inline_links] that is there but is not a
    mapping has no [get], and the function raises. *)
Lemma get_cited_by_not_a_mapping (o : list (string * json)) v :
  lookup "inline_links" o = Some v ->
  (forall inline_links, v <> JObj inline_links) ->
  get_cited_by (JObj o) = Raise AttributeError.
Proof.
  intros Hv Hno. unfold get_cited_by, py_get. rewrite Hv. cbn [rbind].
  destruct v; try reflexivity. exfalso. exact (Hno _ eq_refl).
Qed.

(** ** Missing fields *)


Lemma first_result_reached o first rest :
  lookup "organic_results" o = Some (JArr (first :: rest)) ->
  follow_up_link (JObj o) =
  (cited_by <~ get_cited_by first ;;
   if py_truthy cited_by then
     cited_by_link <~ py_getitem cited_by "serpapi_scholar_link" ;;
     cited_by_link <~ rewrite_link cited_by_link ;;
     Ok (Some cited_by_link)
   else Ok None).
Proof.
  intros H. unfold follow_up_link, py_in, py_getitem. rewrite H.
  cbn [rbind py_len py_first].
  replace (0 <? Z.of_nat (List.length (first :: rest))) with true;
    [reflexivity|].
  symmetry. apply Z.ltb_lt. cbn [List.length]. lia.
Qed.




(** ** The follow-up link *)

Lemma re_sub_q_scan_dropping s :
  one_line s = true -> re_sub_q_scan true s = EmptyString.
Proof.
  unfold one_line. induction s as [|c s IH]; cbn [re_sub_q_scan str_forallb];
    [reflexivity|].
  intros H. apply andb_prop in H as [Hc Hs].
  apply negb_true_iff in Hc. rewrite Hc. apply IH, Hs.
Qed.

Lemma re_sub_q_without_q s : occurs_q s = false -> re_sub_q s = s.
Proof.
  unfold re_sub_q. induction s as [|c s IH]; [reflexivity|].
  cbn [occurs_q re_sub_q_scan]. destruct s as [|d s]; [reflexivity|].
  intros H. apply orb_false_elim in H as [Hcd Hs].
  rewrite Hcd, (IH Hs). reflexivity.
Qed.

Lemma re_sub_q_cuts_at_q pre rest :
  occurs_q (pre ++ "q") = false -> one_line rest = true ->
  re_sub_q (pre ++ "q=" ++ rest) = pre.
Proof.
  unfold re_sub_q. intros Hpre Hrest.
  induction pre as [|c pre IH].
  - cbn. apply re_sub_q_scan_dropping, Hrest.
  - change (String c pre ++ "q=" ++ rest)
      with (String c (pre ++ "q=" ++ rest)).
    change (String c pre ++ "q") with (String c (pre ++ "q")) in Hpre.
    destruct pre as [|d pre].
    + cbn in Hpre |- *. rewrite andb_false_r. cbn.
      rewrite (re_sub_q_scan_dropping _ Hrest). reflexivity.
    + change (String d pre ++ "q=" ++ rest)
        with (String d (pre ++ "q=" ++ rest)) in *.
      change (String d pre ++ "q") with (String d (pre ++ "q")) in *.
      cbn [occurs_q] in Hpre. apply orb_false_elim in Hpre as [Hcd Hs].
      cbn [re_sub_q_scan]. rewrite Hcd.
      f_equal. apply IH. exact Hs.
Qed.

Lemma follow_up_link_found o first rest cb s key :
  SERP_API_KEY = Some key ->
  lookup "organic_results" o = Some (JArr (first :: rest)) ->
  get_cited_by first = Ok cb -> py_truthy cb = true ->
  py_getitem cb "serpapi_scholar_link" = Ok (JStr s) ->
  follow_up_link (JObj o) = Ok (Some (re_sub_q s ++ "&api_key=" ++ key)).
Proof.
  intros Hkey H Hcb Htrue Hlink.
  rewrite (first_result_reached _ _ _ H), Hcb. cbn [rbind].
  rewrite Htrue, Hlink. cbn [rbind]. unfold rewrite_link. rewrite Hkey.
  reflexivity.
Qed.

(** C6, as the script has it.  The cited-by link of the first result is
    rewritten by [re.sub("q=.*", "", link) + "&api_key=" + key]; the
    rewritten link is printed and is the URL of the second request.  On a
    link of one line the substitution cuts the link at its first [q=]:
    what stands before it is kept, the search term and all that follows
    it are removed; a link without [q=] is kept whole. *)
Theorem follow_up_link_rewritten key :
  SERP_API_KEY = Some key ->
  (forall s, rewrite_link (JStr s) = Ok (re_sub_q s ++ "&api_key=" ++ key)) /\
  (forall all_citers title w o first rest cb s,
      serpapi (requests w) (api_url title) = Ok (JObj o) ->
      lookup "organic_results" o = Some (JArr (first :: rest)) ->
      get_cited_by first = Ok cb -> py_truthy cb = true ->
      py_getitem cb "serpapi_scholar_link" = Ok (JStr s) ->
      fst (citers_of_title all_citers title w) =
      mkWorld (stdout w ++ [re_sub_q s ++ "&api_key=" ++ key])
              (requests w ++ [api_url title;
                              re_sub_q s ++ "&api_key=" ++ key])
              (opened w)) /\
  (forall s, occurs_q s = false -> re_sub_q s = s) /\
  (forall pre rest,
      occurs_q (pre ++ "q") = false -> one_line rest = true ->
      re_sub_q (pre ++ "q=" ++ rest) = pre).
Proof.
  intros Hkey. split; [|split; [|split]].
  - intros s. unfold rewrite_link. rewrite Hkey. reflexivity.
  - intros all_citers title w o first rest cb s Hres H Hcb Htrue Hlink.
    pose proof (follow_up_link_found _ _ _ _ _ _ Hkey H Hcb Htrue Hlink) as Hf.
    rewrite citers_of_title_stages.
    unfold bind, urlopen_json, lift, print. rewrite Hres, Hf.
    cbn [stdout requests opened].
    destruct (serpapi (requests w ++ [api_url title]) _) as [cite|e];
      cbn [fst]; rewrite <- app_assoc; reflexivity.
  - apply re_sub_q_without_q.
  - apply re_sub_q_cuts_at_q.
Qed.

(** ** The ranking and the report *)

Lemma rmap_ok_in {A B} (f : A -> result B) l ys :
  rmap f l = Ok ys -> forall y, In y ys -> exists x, In x l /\ f x = Ok y.
Proof.
  revert ys. induction l as [|x l IH]; cbn [rmap]; intros ys H y Hy.
  - injection H as <-. destruct Hy.
  - destruct (f x) as [b|e] eqn:Ex; [|discriminate H]. cbn [rbind] in H.
    destruct (rmap f l) as [bs|e]; [|discriminate H]. cbn [rbind] in H.
    injection H as <-. destruct Hy as [<-|Hy].
    + exists x. split; [left; reflexivity|exact Ex].
    + destruct (IH bs eq_refl y Hy) as (x' & Hin & Hx').
      exists x'. split; [right; exact Hin|exact Hx'].
Qed.

Lemma insert_desc_in {A} (x y : Z * A) l :
  In y (insert_desc x l) -> y = x \/ In y l.
Proof.
  induction l as [|z l IH]; cbn [insert_desc]; intros H.
  - destruct H as [<-|[]]. left; reflexivity.
  - destruct (fst x <? fst z).
    + destruct H as [<-|H]; [right; left; reflexivity|].
      destruct (IH H) as [->|Hin]; [left; reflexivity|right; right; exact Hin].
    + destruct H as [<-|H]; [left; reflexivity|right; exact H].
Qed.

Lemma sort_desc_in {A} (y : Z * A) l : In y (sort_desc l) -> In y l.
Proof.
  induction l as [|x l IH]; cbn [sort_desc]; intros H; [exact H|].
  destruct (insert_desc_in _ _ _ H) as [->|Hin];
    [left; reflexivity|right; exact (IH Hin)].
Qed.

(** Every ranked entry is an item of the map, and its sort key was
    computed. *)
Lemma rank_in all_citers ranked e :
  rank all_citers = Ok ranked -> In e ranked ->
  In e all_citers /\ exists k, sort_key e = Ok k.
Proof.
  unfold rank. intros H He.
  destruct (rmap _ all_citers) as [keyed|err] eqn:Ek; [|discriminate H].
  cbn [rbind] in H. injection H as <-.
  apply in_map_iff in He as ([k e'] & <- & Hin).
  apply sort_desc_in in Hin.
  destruct (rmap_ok_in _ _ _ Ek _ Hin) as (x & Hx & Hfx).
  destruct (sort_key x) as [k'|err] eqn:Ekey; [|discriminate Hfx].
  cbn [rbind] in Hfx. injection Hfx as -> ->.
  split; [exact Hx|]. exists k. exact Ekey.
Qed.

Lemma row_of_ranked count link paper_info k t :
  sort_key (link, (count, paper_info)) = Ok k ->
  title_text paper_info = Some t ->
  (total <~ total_or_0 paper_info ;; row count total link (JStr t)) =
  Ok (row_text (link, (count, paper_info))).
Proof.
  unfold sort_key, row_text, total_citations, row. cbn [fst snd].
  intros Hk Ht. rewrite Ht.
  destruct (total_or_0 paper_info) as [total|e]; [|discriminate Hk].
  cbn [rbind] in *.
  destruct (py_number total) as [n|e]; [|discriminate Hk].
  reflexivity.
Qed.

Lemma report_entry_spec norm_titles e k w :
  sort_key e = Ok k -> title_text (snd (snd e)) <> None ->
  report_entry norm_titles e w =
  (mkWorld (stdout w ++ (if kept norm_titles e then [row_text e] else []))
           (requests w) (opened w),
   Ok tt).
Proof.
  destruct e as [link [count paper_info]]. cbn [fst snd]. intros Hk Ht.
  destruct (title_text paper_info) as [t|] eqn:Et; [|contradiction].
  pose proof (row_of_ranked _ _ _ _ _ Hk Et) as Hrow.
  unfold report_entry, kept, bind, lift, print, ret. cbn [fst snd].
  rewrite Et. unfold title_text in Et.
  destruct paper_info as [| | | |l|o]; try discriminate Et.
  unfold py_get.
  destruct (lookup "title" o) as [[| | |s| |]|]; try discriminate Et;
    injection Et as ->; cbn [py_norm_title];
    (destruct (set_mem (norm_title t) norm_titles); cbn [negb];
     [rewrite app_nil_r; destruct w; reflexivity
     |rewrite Hrow; reflexivity]).
Qed.

Lemma for_each_report norm_titles entries :
  (forall e, In e entries ->
             (exists k, sort_key e = Ok k) /\ title_text (snd (snd e)) <> None) ->
  forall w,
  for_each entries (report_entry norm_titles) w =
  (mkWorld (stdout w ++ map row_text (filter (kept norm_titles) entries))
           (requests w) (opened w),
   Ok tt).
Proof.
  induction entries as [|e entries IH]; intros Hwf w.
  - cbn. rewrite app_nil_r. destruct w; reflexivity.
  - cbn [for_each filter]. unfold bind.
    destruct (Hwf e (or_introl eq_refl)) as [[k Hk] Ht].
    rewrite (report_entry_spec _ _ _ _ Hk Ht).
    rewrite IH by (intros e' He'; apply Hwf; right; exact He').
    cbn [stdout requests opened].
    destruct (kept norm_titles e); cbn [map app];
      rewrite <- app_assoc; reflexivity.
Qed.

Lemma set_mem_map_norm t titles :
  set_mem (norm_title t) (map norm_title titles) = true <->
  exists bib_title, In bib_title titles /\ norm_title bib_title = norm_title t.
Proof.
  unfold set_mem. rewrite existsb_exists. split.
  - intros (x & Hin & Heq). apply String.eqb_eq in Heq.
    apply in_map_iff in Hin as (b & Hb & Hinb).
    exists b. split; [exact Hinb|]. congruence.
  - intros (b & Hinb & Heq). exists (norm_title b). split.
    + apply in_map. exact Hinb.
    + apply String.eqb_eq. symmetry. exact Heq.
Qed.

(** C4.  On the output of the ranker, the titles of the records being
    strings, the report prints the header and then, in rank order, one
    line per kept entry: hit count, total citations, link and title with
    tabs between them.  An entry is dropped exactly when its title has the
    normal form of a title of the bibliography, whatever the case and the
    punctuation of the two. *)
Theorem report_drops_bibliography_titles titles all_citers ranked w :
  rank all_citers = Ok ranked ->
  (forall e, In e ranked -> title_text (snd (snd e)) <> None) ->
  report (map norm_title titles) ranked w =
  (mkWorld (stdout w ++ header
                     :: map row_text
                            (filter (kept (map norm_title titles)) ranked))
           (requests w) (opened w),
   Ok tt) /\
  (forall e t,
      In e ranked -> title_text (snd (snd e)) = Some t ->
      (kept (map norm_title titles) e = false <->
       exists bib_title,
         In bib_title titles /\ norm_title bib_title = norm_title t)).
Proof.
  intros Hrank Htitles. split.
  - unfold report, bind, print.
    rewrite for_each_report.
    + cbn [stdout requests opened]. rewrite <- app_assoc. reflexivity.
    + intros e He. split; [|exact (Htitles e He)].
      exact (proj2 (rank_in _ _ _ Hrank He)).
  - intros e t _ Ht. unfold kept. rewrite Ht, negb_false_iff.
    apply set_mem_map_norm.
Qed.

(** ** The hit counts when no page repeats a key *)

Lemma py_key_eqb_sym a b : py_key_eqb a b = py_key_eqb b a.
Proof.
  destruct a, b; cbn; try reflexivity;
    first [apply Z.eqb_sym | apply String.eqb_sym | idtac].
  destruct b, b0; reflexivity.
Qed.

Lemma py_key_eqb_trans a b c :
  py_key_eqb a b = true -> py_key_eqb b c = true -> py_key_eqb a c = true.
Proof.
  destruct a, b, c; cbn; try discriminate; try reflexivity;
    rewrite ?Z.eqb_eq, ?String.eqb_eq, ?Bool.eqb_true_iff;
    intros; subst; repeat match goal with b : bool |- _ => destruct b end;
    try reflexivity; try congruence; try lia.
Qed.

Lemma py_key_eqb_left a b k :
  py_key_eqb a b = true -> py_key_eqb a k = py_key_eqb b k.
Proof.
  intros Hab. destruct (py_key_eqb b k) eqn:Hbk.
  - exact (py_key_eqb_trans _ _ _ Hab Hbk).
  - destruct (py_key_eqb a k) eqn:Hak; [|reflexivity].
    rewrite py_key_eqb_sym in Hab.
    rewrite (py_key_eqb_trans _ _ _ Hab Hak) in Hbk. discriminate Hbk.
Qed.

Lemma py_hashable_refl k : py_hashable k = true -> py_key_eqb k k = true.
Proof.
  destruct k; cbn; try discriminate; intros _;
    first [reflexivity | apply Z.eqb_refl | apply String.eqb_refl
          | apply Bool.eqb_reflx].
Qed.

Lemma hit_count_citers_set k k' v m :
  hit_count k (citers_set k' v m) =
  if py_key_eqb k' k then fst v else hit_count k m.
Proof.
  destruct v as [c p]. induction m as [|[k0 [c0 p0]] m IH];
    cbn [citers_set hit_count fst]; [reflexivity|].
  destruct (py_key_eqb k0 k') eqn:E0; cbn [hit_count].
  - rewrite (py_key_eqb_left _ _ k E0).
    destruct (py_key_eqb k' k); reflexivity.
  - rewrite IH. cbn [fst].
    destruct (py_key_eqb k0 k) eqn:E1; [|reflexivity].
    destruct (py_key_eqb k' k) eqn:E2; [|reflexivity].
    rewrite py_key_eqb_sym in E2.
    rewrite (py_key_eqb_trans _ _ _ E1 E2) in E0. discriminate E0.
Qed.

Lemma hit_count_equal_keys a b m :
  py_key_eqb a b = true -> hit_count a m = hit_count b m.
Proof.
  intros Hab. induction m as [|[k0 [c0 p0]] m IH]; cbn [hit_count];
    [reflexivity|].
  rewrite (py_key_eqb_sym k0 a), (py_key_eqb_sym k0 b),
    (py_key_eqb_left _ _ k0 Hab), IH.
  reflexivity.
Qed.

Lemma count_citer_inv m e m' :
  count_citer m e = Ok m' ->
  exists k, entry_key e = Ok k /\ py_hashable k = true /\
            m' = citers_set k (hit_count k m + 1, e) m.
Proof.
  unfold count_citer, entry_key, no_link_key. intros H.
  destruct (py_in "link" e) as [has|err]; [|discriminate H].
  cbn [rbind] in *.
  destruct (if has then _ else _) as [k|err]; [|discriminate H].
  cbn [rbind] in H. exists k.
  destruct (py_hashable k); [|discriminate H].
  injection H as <-. auto.
Qed.

Lemma citers_set_fst e k v m :
  In e (citers_set k v m) -> (exists e', In e' m /\ fst e' = fst e) \/ fst e = k.
Proof.
  induction m as [|[k0 v0] m IH]; cbn [citers_set]; intros H.
  - destruct H as [<-|[]]. right; reflexivity.
  - destruct (py_key_eqb k0 k).
    + destruct H as [<-|H]; left.
      * exists (k0, v0). split; [left|]; reflexivity.
      * exists e. split; [right; exact H|reflexivity].
    + destruct H as [<-|H].
      * left. exists (k0, v0). split; [left|]; reflexivity.
      * destruct (IH H) as [(e' & He' & Hf)|Hk]; [left|right; exact Hk].
        exists e'. split; [right; exact He'|exact Hf].
Qed.

Lemma citers_set_wf k v m :
  py_key_eqb k k = true -> citers_wf m -> citers_wf (citers_set k v m).
Proof.
  intros Hk. induction m as [|[k0 v0] m IH]; cbn [citers_set citers_wf].
  - intros _. split; [exact Hk|]. split; [intros e []|exact I].
  - intros (H0 & Hfresh & Hwf).
    destruct (py_key_eqb k0 k) eqn:E0; cbn [citers_wf]; [auto|].
    split; [exact H0|]. split; [|exact (IH Hwf)].
    intros e He. destruct (citers_set_fst _ _ _ _ He) as [(e' & He' & <-) | -> ].
    + exact (Hfresh e' He').
    + exact E0.
Qed.

Lemma citers_wf_hit_count m k c p :
  citers_wf m -> In (k, (c, p)) m -> hit_count k m = c.
Proof.
  induction m as [|[k0 [c0 p0]] m IH]; cbn [citers_wf hit_count];
    intros Hwf Hin; [destruct Hin|].
  destruct Hwf as (H0 & Hfresh & Hwf). destruct Hin as [Heq|Hin].
  - injection Heq as -> -> ->. rewrite H0. reflexivity.
  - pose proof (Hfresh _ Hin) as Hf. cbn [fst] in Hf. rewrite Hf.
    exact (IH Hwf Hin).
Qed.

(** A page without a repeated key adds one to the count of each of its
    keys, and nothing to the others. *)
Lemma rfold_count_citer_distinct entries :
  forall m m',
  rfold count_citer m entries = Ok m' -> distinct_keys entries = true ->
  (citers_wf m -> citers_wf m') /\
  forall k, hit_count k m' =
            hit_count k m + (if existsb (touches k) entries then 1 else 0).
Proof.
  induction entries as [|e entries IH]; cbn [rfold distinct_keys existsb];
    intros m m' Hrun Hdist.
  - injection Hrun as <-. split; [auto|]. intros k. lia.
  - destruct (count_citer m e) as [m1|err] eqn:E1; [|discriminate Hrun].
    cbn [rbind] in Hrun.
    destruct (count_citer_inv _ _ _ E1) as (ke & Hke & Hhash & ->).
    rewrite Hke in Hdist. apply andb_prop in Hdist as [Hfresh Hdist].
    apply negb_true_iff in Hfresh.
    destruct (IH _ _ Hrun Hdist) as [Hwf Hcount]. split.
    + intros Hm. apply Hwf, citers_set_wf; [|exact Hm].
      apply py_hashable_refl, Hhash.
    + intros k. rewrite Hcount, hit_count_citers_set. cbn [fst].
      replace (touches k e) with (py_key_eqb ke k)
        by (unfold touches; rewrite Hke; reflexivity).
      destruct (py_key_eqb ke k) eqn:Ek; cbn [orb]; [|reflexivity].
      rewrite (hit_count_equal_keys _ _ _ Ek).
      replace (existsb (touches k) entries) with false; [lia|].
      symmetry. apply not_true_is_false. intros Hex.
      apply existsb_exists in Hex as (r & Hr & Ht).
      assert (Hex : existsb (touches ke) entries = true).
      { apply existsb_exists. exists r. split; [exact Hr|].
        unfold touches in *. destruct (entry_key r) as [kr|]; [|discriminate Ht].
        rewrite py_key_eqb_sym in Ek. exact (py_key_eqb_trans _ _ _ Ht Ek). }
      rewrite Hex in Hfresh. discriminate Hfresh.
Qed.

Lemma count_citers_page m doc :
  count_citers m doc =
  (has2 <~ py_in "organic_results" doc ;;
   if has2 : bool then entries <~ page_entries doc ;;
                       rfold count_citer m entries
   else Ok m).
Proof.
  unfold count_citers, page_entries.
  destruct (py_in "organic_results" doc) as [[|]|err]; try reflexivity.
  cbn [rbind]. destruct (py_getitem doc "organic_results"); reflexivity.
Qed.

Section DistinctPages.

(** No response of the service repeats a key among its entries. *)
Hypothesis pages_distinct :
  forall history url doc entries,
    serpapi history url = Ok doc -> page_entries doc = Ok entries ->
    distinct_keys entries = true.

Lemma count_citers_distinct history url m cite_res m' :
  serpapi history url = Ok cite_res ->
  count_citers m cite_res = Ok m' ->
  (citers_wf m -> citers_wf m') /\
  forall k, hit_count k m' <= hit_count k m + 1.
Proof.
  intros Hdoc. rewrite count_citers_page. intros H.
  destruct (py_in "organic_results" cite_res) as [[|]|err];
    cbn [rbind] in H; try discriminate H.
  - destruct (page_entries cite_res) as [entries|err] eqn:Ep;
      cbn [rbind] in H; [|discriminate H].
    pose proof (pages_distinct _ _ _ _ Hdoc Ep) as Hd.
    destruct (rfold_count_citer_distinct _ _ _ H Hd) as [Hwf Hcount].
    split; [exact Hwf|]. intros k. rewrite Hcount.
    destruct (existsb (touches k) entries); lia.
  - injection H as <-. split; [auto|]. intros k. lia.
Qed.

Lemma citers_of_title_distinct m title w w' m' :
  citers_of_title m title w = (w', Ok m') ->
  (citers_wf m -> citers_wf m') /\
  forall k, hit_count k m' <= hit_count k m + 1.
Proof.
  rewrite citers_of_title_stages.
  unfold bind, urlopen_json, lift, print, ret.
  destruct (serpapi (requests w) (api_url title)) as [res|err];
    [|discriminate].
  destruct (follow_up_link res) as [[link|]|err]; [| |discriminate].
  - cbn [stdout requests opened].
    destruct (serpapi (requests w ++ [api_url title]) link)
      as [cite_res|err] eqn:Hcite; [|discriminate].
    intros H. injection H as _ H.
    exact (count_citers_distinct _ _ _ _ _ Hcite H).
  - intros H. injection H as _ <-. split; [auto|]. intros k. lia.
Qed.

Lemma fold_run_distinct titles :
  forall m w w' m',
  fold_run citers_of_title m titles w = (w', Ok m') ->
  (citers_wf m -> citers_wf m') /\
  forall k, hit_count k m' <= hit_count k m + Z.of_nat (List.length titles).
Proof.
  induction titles as [|title titles IH]; intros m w w' m' H.
  - cbn in H. injection H as _ <-. split; [auto|]. intros k. cbn. lia.
  - cbn [fold_run] in H. unfold bind in H.
    destruct (citers_of_title m title w) as [w1 [m1|err]] eqn:E1;
      [|discriminate H].
    destruct (citers_of_title_distinct _ _ _ _ _ E1) as [Hwf1 Hc1].
    destruct (IH _ _ _ _ H) as [Hwf Hc]. split; [auto|].
    intros k. specialize (Hc k). specialize (Hc1 k).
    cbn [List.length]. lia.
Qed.

(** X4.  The hit counts of the result stay within the number of titles, as
    long as no page repeats a key. *)
Lemma hit_count_within_titles titles w w' ranked :
  find_citers_from_titles titles w = (w', Ok ranked) ->
  forall k c p, In (k, (c, p)) ranked -> c <= Z.of_nat (List.length titles).
Proof.
  unfold find_citers_from_titles, bind, lift. intros H k c p Hin.
  destruct (fold_run citers_of_title [] (firstn title_limit titles) w)
    as [w1 [m|err]] eqn:Efold; [|discriminate H].
  injection H as _ Hrank.
  destruct (fold_run_distinct _ _ _ _ _ Efold) as [Hwf Hcount].
  destruct (rank_in _ _ _ Hrank Hin) as [Hm _].
  rewrite <- (citers_wf_hit_count _ _ _ _ (Hwf I) Hm).
  specialize (Hcount k). cbn [hit_count] in Hcount.
  rewrite length_firstn in Hcount.
  pose proof (Nat.le_min_r title_limit (List.length titles)) as Hle.
  apply Nat2Z.inj_le in Hle. lia.
Qed.

End DistinctPages.

(** ** The order of the ranking *)

Lemma insert_desc_perm {A} (x : Z * A) l : Permutation (x :: l) (insert_desc x l).
Proof.
  induction l as [|y l IH]; cbn [insert_desc]; [reflexivity|].
  destruct (fst x <? fst y); [|reflexivity].
  rewrite perm_swap. apply perm_skip, IH.
Qed.

Lemma sort_desc_perm {A} (l : list (Z * A)) : Permutation l (sort_desc l).
Proof.
  induction l as [|x l IH]; cbn [sort_desc]; [reflexivity|].
  rewrite <- insert_desc_perm. apply perm_skip, IH.
Qed.

Lemma insert_desc_sorted {A} (x : Z * A) l :
  StronglySorted (fun a b => fst b <= fst a) l ->
  StronglySorted (fun a b => fst b <= fst a) (insert_desc x l).
Proof.
  induction 1 as [|y l Hs IH Hy]; cbn [insert_desc].
  - constructor; constructor.
  - destruct (Z.ltb_spec (fst x) (fst y)) as [Hlt|Hge].
    + constructor; [exact IH|].
      rewrite <- insert_desc_perm. constructor; [lia|exact Hy].
    + constructor; [constructor; assumption|].
      constructor; [exact Hge|].
      eapply Forall_impl; [|exact Hy]. cbn beta. intros z Hz. lia.
Qed.

Lemma sort_desc_sorted {A} (l : list (Z * A)) :
  StronglySorted (fun a b => fst b <= fst a) (sort_desc l).
Proof.
  induction l as [|x l IH]; cbn [sort_desc]; [constructor|].
  apply insert_desc_sorted, IH.
Qed.

(** The sort is stable: the items of one key keep their order. *)
Lemma insert_desc_stable {A} (x : Z * A) l k :
  filter (fun y => fst y =? k) (insert_desc x l) =
  filter (fun y => fst y =? k) (x :: l).
Proof.
  induction l as [|y l IH]; cbn [insert_desc]; [reflexivity|].
  destruct (Z.ltb_spec (fst x) (fst y)) as [Hlt|Hge]; [|reflexivity].
  cbn [filter] in *. rewrite IH.
  destruct (Z.eqb_spec (fst x) k) as [Hx|Hx];
    destruct (Z.eqb_spec (fst y) k) as [Hy|Hy]; try reflexivity.
  lia.
Qed.

Lemma sort_desc_stable {A} (l : list (Z * A)) k :
  filter (fun y => fst y =? k) (sort_desc l) = filter (fun y => fst y =? k) l.
Proof.
  induction l as [|x l IH]; cbn [sort_desc]; [reflexivity|].
  rewrite insert_desc_stable. cbn [filter]. rewrite IH. reflexivity.
Qed.

Lemma sort_key_composite e k : sort_key e = Ok k -> k = composite_key e.
Proof.
  unfold sort_key, composite_key, total_citations.
  destruct (total_or_0 (snd (snd e))) as [total|err]; [|discriminate].
  cbn [rbind]. destruct (py_number total) as [t|err]; [|discriminate].
  cbn [rbind]. intros H. injection H as <-. reflexivity.
Qed.

(** The items paired with their keys, when every key can be computed. *)
Lemma rank_keyed all_citers ranked :
  rank all_citers = Ok ranked ->
  ranked = map snd (sort_desc (map (fun e => (composite_key e, e)) all_citers)).
Proof.
  unfold rank. intros H.
  destruct (rmap _ all_citers) as [keyed|err] eqn:Ek; [|discriminate H].
  cbn [rbind] in H. injection H as <-. f_equal. f_equal.
  revert keyed Ek. induction all_citers as [|e l IH]; cbn [rmap map];
    intros keyed Ek.
  - injection Ek as <-. reflexivity.
  - destruct (sort_key e) as [k|err] eqn:Ekey; [|discriminate Ek].
    cbn [rbind] in Ek.
    destruct (rmap _ l) as [ks|err]; [|discriminate Ek].
    cbn [rbind] in Ek. injection Ek as <-.
    rewrite (sort_key_composite _ _ Ekey), (IH ks eq_refl). reflexivity.
Qed.

Lemma keyed_sorted (l : list (Z * (json * (Z * json)))) :
  Forall (fun x => fst x = composite_key (snd x)) l ->
  StronglySorted (fun a b => fst b <= fst a) l ->
  StronglySorted (fun a b => composite_key b <= composite_key a) (map snd l).
Proof.
  intros Hkey Hs. induction Hs as [|x l Hs IH Hx]; cbn [map]; [constructor|].
  inversion Hkey as [|? ? Hx0 Hl]; subst.
  constructor; [exact (IH Hl)|].
  apply Forall_map. rewrite Forall_forall in Hx, Hl |- *.
  intros y Hy. rewrite <- Hx0, <- (Hl y Hy). exact (Hx y Hy).
Qed.

Lemma rank_perm_sorted all_citers ranked :
  rank all_citers = Ok ranked ->
  Permutation all_citers ranked /\
  StronglySorted (fun a b => composite_key b <= composite_key a) ranked.
Proof.
  intros H. rewrite (rank_keyed _ _ H). clear H ranked.
  set (keyed := map (fun e => (composite_key e, e)) all_citers).
  assert (Hkey : Forall (fun x => fst x = composite_key (snd x))
                        (sort_desc keyed)).
  { eapply Permutation_Forall; [apply sort_desc_perm|].
    apply Forall_forall. intros x Hx. apply in_map_iff in Hx as (e & <- & _).
    reflexivity. }
  assert (Hsnd : map snd keyed = all_citers).
  { unfold keyed. rewrite map_map. cbn [snd]. apply map_id. }
  split.
  - rewrite <- Hsnd at 1. apply Permutation_map, sort_desc_perm.
  - apply keyed_sorted; [exact Hkey|apply sort_desc_sorted].
Qed.

Lemma filter_keyed k (l : list (Z * (json * (Z * json)))) :
  Forall (fun x => fst x = composite_key (snd x)) l ->
  filter (fun e => composite_key e =? k) (map snd l) =
  map snd (filter (fun y => fst y =? k) l).
Proof.
  induction 1 as [|x l Hx _ IH]; cbn [map filter]; [reflexivity|].
  rewrite <- Hx, IH. destruct (fst x =? k); reflexivity.
Qed.

(** X1.  What the ranking does, the sort key of every item being computed
    exactly: its output is the items of the map, put in descending order
    of [1e6 * hits + total], the items of one key in the order of the
    map. *)
Lemma rank_stable_descending all_citers ranked :
  rank all_citers = Ok ranked ->
  (forall e, In e all_citers -> float_exact e) ->
  Permutation all_citers ranked /\
  StronglySorted (fun a b => composite_key b <= composite_key a) ranked /\
  forall k,
    filter (fun e => composite_key e =? k) ranked =
    filter (fun e => composite_key e =? k) all_citers.
Proof.
  intros H _. destruct (rank_perm_sorted _ _ H) as [Hperm Hsorted].
  split; [exact Hperm|]. split; [exact Hsorted|].
  intros k. rewrite (rank_keyed _ _ H).
  set (keyed := map (fun e => (composite_key e, e)) all_citers).
  assert (Hkey : Forall (fun x => fst x = composite_key (snd x)) keyed).
  { apply Forall_forall. intros x Hx. apply in_map_iff in Hx as (e & <- & _).
    reflexivity. }
  assert (Hkey' : Forall (fun x => fst x = composite_key (snd x))
                         (sort_desc keyed)).
  { eapply Permutation_Forall; [apply sort_desc_perm|exact Hkey]. }
  rewrite (filter_keyed _ _ Hkey'), sort_desc_stable, <- (filter_keyed _ _ Hkey).
  unfold keyed. rewrite map_map. cbn [snd]. rewrite map_id. reflexivity.
Qed.


(** ** What every step of the aggregator keeps *)

Section Steps.

(** A relation between the map before and after, kept by the counting of
    one entry. *)
Variable R : citers -> citers -> Prop.
Hypothesis R_refl : forall m, R m m.
Hypothesis R_trans : forall m1 m2 m3, R m1 m2 -> R m2 m3 -> R m1 m3.
Hypothesis R_count :
  forall m e m', count_citer m e = Ok m' -> R m m'.

Lemma rfold_count_citer_keeps entries :
  forall m m', rfold count_citer m entries = Ok m' -> R m m'.
Proof.
  induction entries as [|e entries IH]; cbn [rfold]; intros m m' H.
  - injection H as <-. apply R_refl.
  - destruct (count_citer m e) as [m1|err] eqn:E1; [|discriminate H].
    cbn [rbind] in H. exact (R_trans _ _ _ (R_count _ _ _ E1) (IH _ _ H)).
Qed.

Lemma count_citers_keeps m cite_res m' :
  count_citers m cite_res = Ok m' -> R m m'.
Proof.
  rewrite count_citers_page. intros H.
  destruct (py_in "organic_results" cite_res) as [[|]|err];
    cbn [rbind] in H; try discriminate H.
  - destruct (page_entries cite_res) as [entries|err]; cbn [rbind] in H;
      [|discriminate H].
    exact (rfold_count_citer_keeps _ _ _ H).
  - injection H as <-. apply R_refl.
Qed.

Lemma citers_of_title_keeps m title w w' m' :
  citers_of_title m title w = (w', Ok m') -> R m m'.
Proof.
  rewrite citers_of_title_stages.
  unfold bind, urlopen_json, lift, print, ret.
  destruct (serpapi (requests w) (api_url title)) as [res|err];
    [|discriminate].
  destruct (follow_up_link res) as [[link|]|err]; [| |discriminate].
  - cbn [stdout requests opened].
    destruct (serpapi (requests w ++ [api_url title]) link)
      as [cite_res|err]; [|discriminate].
    intros H. injection H as _ H. exact (count_citers_keeps _ _ _ H).
  - intros H. injection H as _ <-. apply R_refl.
Qed.

Lemma fold_run_keeps titles :
  forall m w w' m',
  fold_run citers_of_title m titles w = (w', Ok m') -> R m m'.
Proof.
  induction titles as [|title titles IH]; intros m w w' m' H.
  - cbn in H. injection H as _ <-. apply R_refl.
  - cbn [fold_run] in H. unfold bind in H.
    destruct (citers_of_title m title w) as [w1 [m1|err]] eqn:E1;
      [|discriminate H].
    exact (R_trans _ _ _ (citers_of_title_keeps _ _ _ _ _ E1) (IH _ _ _ _ H)).
Qed.

End Steps.

Lemma citers_set_in e k v m :
  In e (citers_set k v m) ->
  In e m \/ (snd e = v /\ (fst e = k \/ py_key_eqb (fst e) k = true)).
Proof.
  induction m as [|[k0 v0] m IH]; cbn [citers_set]; intros H.
  - destruct H as [<-|[]]. right. split; [reflexivity|left; reflexivity].
  - destruct (py_key_eqb k0 k) eqn:E0.
    + destruct H as [<-|H]; [|left; right; exact H].
      right. split; [reflexivity|right; exact E0].
    + destruct H as [<-|H]; [left; left; reflexivity|].
      destruct (IH H) as [Hin|Hnew]; [left; right; exact Hin|right; exact Hnew].
Qed.

Lemma citers_set_keys k v m :
  map fst (citers_set k v m) = map fst m \/
  map fst (citers_set k v m) = (map fst m ++ [k])%list.
Proof.
  induction m as [|[k0 v0] m IH]; cbn [citers_set map fst app].
  - right. reflexivity.
  - destruct (py_key_eqb k0 k); cbn [map fst]; [left; reflexivity|].
    destruct IH as [-> | ->]; [left|right]; reflexivity.
Qed.

Lemma hit_count_nonneg k m :
  (forall k' c p, In (k', (c, p)) m -> 1 <= c) -> 0 <= hit_count k m.
Proof.
  induction m as [|[k0 [c0 p0]] m IH]; cbn [hit_count]; intros Hpos; [lia|].
  destruct (py_key_eqb k0 k).
  - specialize (Hpos k0 c0 p0 (or_introl eq_refl)). lia.
  - apply IH. intros k' c p Hin. exact (Hpos k' c p (or_intror Hin)).
Qed.

(** The entries of the result come from the map the loop has built. *)
Lemma find_citers_from_titles_inv titles w w' ranked :
  find_citers_from_titles titles w = (w', Ok ranked) ->
  exists w1 m,
    fold_run citers_of_title [] (firstn title_limit titles) w = (w1, Ok m) /\
    rank m = Ok ranked.
Proof.
  unfold find_citers_from_titles, bind, lift. intros H.
  destruct (fold_run citers_of_title [] (firstn title_limit titles) w)
    as [w1 [m|err]]; [|discriminate H].
  injection H as _ Hrank. exists w1, m. split; [reflexivity|exact Hrank].
Qed.

(** X5.  Every hit count of the result is at least 1. *)
Theorem hit_counts_are_positive titles w w' ranked :
  find_citers_from_titles titles w = (w', Ok ranked) ->
  forall k c p, In (k, (c, p)) ranked -> 1 <= c.
Proof.
  intros H k c p Hin.
  destruct (find_citers_from_titles_inv _ _ _ _ H) as (w1 & m & Hfold & Hrank).
  destruct (rank_in _ _ _ Hrank Hin) as [Hm _].
  set (P := fun m : citers => forall k c p, In (k, (c, p)) m -> 1 <= c).
  assert (Hkeep : P [] -> P m).
  { apply (fold_run_keeps (fun m m' => P m -> P m'))
      with (titles := firstn title_limit titles) (w := w) (w' := w1).
    - auto.
    - auto.
    - intros m0 e m0' Hc Hpos k0 c0 p0 Hin0.
      destruct (count_citer_inv _ _ _ Hc) as (ke & _ & _ & ->).
      destruct (citers_set_in _ _ _ _ Hin0) as [Hold|[Hv _]].
      + exact (Hpos _ _ _ Hold).
      + cbn [snd] in Hv. injection Hv as -> _.
        pose proof (hit_count_nonneg ke m0 Hpos). lia.
    - exact Hfold. }
  apply (Hkeep (fun _ _ _ F => match F with end) k c p Hm).
Qed.

(** X6.  Every record of the result is an entry that was counted under the key
    it is listed with: the key is the entry's [link], or the key made of
    its [result_id], up to the equality of keys. *)
Theorem records_belong_to_their_keys titles w w' ranked :
  find_citers_from_titles titles w = (w', Ok ranked) ->
  forall k c p,
    In (k, (c, p)) ranked ->
    exists k', entry_key p = Ok k' /\ py_hashable k' = true /\
               (k = k' \/ py_key_eqb k k' = true).
Proof.
  intros H k c p Hin.
  destruct (find_citers_from_titles_inv _ _ _ _ H) as (w1 & m & Hfold & Hrank).
  destruct (rank_in _ _ _ Hrank Hin) as [Hm _].
  set (P := fun m : citers =>
              forall k c p, In (k, (c, p)) m ->
              exists k', entry_key p = Ok k' /\ py_hashable k' = true /\
                         (k = k' \/ py_key_eqb k k' = true)).
  assert (Hkeep : P [] -> P m).
  { apply (fold_run_keeps (fun m m' => P m -> P m'))
      with (titles := firstn title_limit titles) (w := w) (w' := w1).
    - auto.
    - auto.
    - intros m0 e m0' Hc HP k0 c0 p0 Hin0.
      destruct (count_citer_inv _ _ _ Hc) as (ke & Hke & Hhash & ->).
      destruct (citers_set_in _ _ _ _ Hin0) as [Hold|[Hv Hk]].
      + exact (HP _ _ _ Hold).
      + cbn [snd fst] in Hv, Hk. injection Hv as _ ->.
        exists ke. auto.
    - exact Hfold. }
  apply (Hkeep (fun _ _ _ F => match F with end) k c p Hm).
Qed.

(** X7.  Going through more titles never removes a key, never moves a key and
    never lowers a hit count. *)
Theorem keys_stay_and_counts_grow titles m w w' m' :
  fold_run citers_of_title m titles w = (w', Ok m') ->
  (exists added, map fst m' = (map fst m ++ added)%list) /\
  (forall k, hit_count k m <= hit_count k m').
Proof.
  apply (fold_run_keeps
           (fun m m' => (exists added, map fst m' = (map fst m ++ added)%list) /\
                        (forall k, hit_count k m <= hit_count k m'))).
  - intros m0. split; [exists []; rewrite app_nil_r; reflexivity|].
    intros k. lia.
  - intros m1 m2 m3 [[a1 H1] C1] [[a2 H2] C2]. split.
    + exists (a1 ++ a2)%list. rewrite H2, H1, app_assoc. reflexivity.
    + intros k. specialize (C1 k). specialize (C2 k). lia.
  - intros m0 e m0' Hc.
    destruct (count_citer_inv _ _ _ Hc) as (ke & _ & _ & ->). split.
    + destruct (citers_set_keys ke (hit_count ke m0 + 1, e) m0) as [-> | ->].
      * exists []. rewrite app_nil_r. reflexivity.
      * exists [ke]. reflexivity.
    + intros k. rewrite hit_count_citers_set. cbn [fst].
      destruct (py_key_eqb ke k) eqn:Ek; [|lia].
      rewrite (hit_count_equal_keys _ _ m0 Ek). lia.
Qed.

(** ** Requests, output and failures *)

Lemma citers_of_title_world m title w :
  opened (fst (citers_of_title m title w)) = opened w /\
  exists extra,
    requests (fst (citers_of_title m title w)) =
    (requests w ++ api_url title :: extra)%list /\
    stdout (fst (citers_of_title m title w)) = (stdout w ++ extra)%list /\
    (List.length extra <= 1)%nat.
Proof.
  rewrite citers_of_title_stages.
  unfold bind, urlopen_json, lift, print, ret.
  destruct (serpapi (requests w) (api_url title)) as [res|err].
  - destruct (follow_up_link res) as [[link|]|err].
    + cbn [stdout requests opened].
      split; [destruct (serpapi _ link); reflexivity|].
      exists [link].
      destruct (serpapi (requests w ++ [api_url title]) link);
        cbn [fst stdout requests]; rewrite <- app_assoc; auto.
    + cbn [fst stdout requests opened]. split; [reflexivity|].
      exists []. rewrite app_nil_r. auto.
    + cbn [fst stdout requests opened]. split; [reflexivity|].
      exists []. rewrite app_nil_r. auto.
  - cbn [fst stdout requests opened]. split; [reflexivity|].
    exists []. rewrite app_nil_r. auto.
Qed.

Lemma fold_run_world titles :
  forall m w,
  opened (fst (fold_run citers_of_title m titles w)) = opened w /\
  exists reqs outs,
    requests (fst (fold_run citers_of_title m titles w)) =
    (requests w ++ reqs)%list /\
    stdout (fst (fold_run citers_of_title m titles w)) =
    (stdout w ++ outs)%list /\
    (List.length reqs <= 2 * List.length titles)%nat /\
    incl outs reqs.
Proof.
  induction titles as [|title titles IH]; intros m w.
  - cbn. split; [reflexivity|]. exists [], []. rewrite !app_nil_r.
    repeat split; auto. intros x [].
  - cbn [fold_run]. unfold bind.
    destruct (citers_of_title_world m title w)
      as (Ho & extra & Hr & Hs & Hlen).
    destruct (citers_of_title m title w) as [w1 [m1|err]];
      cbn [fst] in Ho, Hr, Hs.
    + destruct (IH m1 w1) as (Ho' & reqs & outs & Hr' & Hs' & Hlen' & Hincl).
      split; [congruence|].
      exists (api_url title :: extra ++ reqs)%list, (extra ++ outs)%list.
      rewrite Hr', Hs', Hr, Hs, <- !app_assoc. cbn [app List.length].
      repeat split; auto.
      * rewrite length_app. lia.
      * intros x Hx. right. apply in_app_iff.
        apply in_app_iff in Hx as [Hx|Hx]; [left; exact Hx|].
        right. exact (Hincl x Hx).
    + cbn [fst]. split; [exact Ho|].
      exists (api_url title :: extra), extra. cbn [List.length].
      repeat split; auto; [lia|].
      intros x Hx. right. exact Hx.
Qed.

(** X9.  Whatever the service answers and however the run ends, the
    aggregator only adds to the URLs handed to [urlopen] and to the
    output; it hands over at most two URLs per title, so at most 200000;
    and every line it prints is a URL it has handed over. *)
Theorem requests_and_output_of_a_run titles w :
  exists reqs outs,
    requests (fst (find_citers_from_titles titles w)) =
    (requests w ++ reqs)%list /\
    stdout (fst (find_citers_from_titles titles w)) =
    (stdout w ++ outs)%list /\
    (List.length reqs <= 2 * Nat.min title_limit (List.length titles))%nat /\
    Z.of_nat (List.length reqs) <= 200000 /\
    incl outs reqs.
Proof.
  unfold find_citers_from_titles, bind, lift.
  destruct (fold_run_world (firstn title_limit titles) [] w)
    as (Ho & reqs & outs & Hr & Hs & Hlen & Hincl).
  rewrite length_firstn in Hlen.
  assert (Hworld :
            fst (let (w', r) :=
                   fold_run citers_of_title [] (firstn title_limit titles) w in
                 match r with
                 | Ok a => (w', rank a)
                 | Raise e => (w', Raise e)
                 end) =
            fst (fold_run citers_of_title [] (firstn title_limit titles) w)).
  { destruct (fold_run citers_of_title [] (firstn title_limit titles) w)
      as [w1 [m|err]]; reflexivity. }
  rewrite Hworld.
  exists reqs, outs. repeat split; auto.
  assert (Hlim : Z.of_nat title_limit = 100000).
  { unfold title_limit. rewrite Z2Nat.id; lia. }
  pose proof (Nat.le_min_l title_limit (List.length titles)) as Hmin.
  lia.
Qed.

Lemma fold_run_raises {A S} (body : S -> A -> M S) pre :
  forall s w w1 s1 x post w2 e,
  fold_run body s pre w = (w1, Ok s1) ->
  body s1 x w1 = (w2, Raise e) ->
  fold_run body s (pre ++ x :: post) w = (w2, Raise e).
Proof.
  induction pre as [|y pre IH]; intros s w w1 s1 x post w2 e Hpre Hx.
  - cbn in Hpre. injection Hpre as <- <-.
    cbn [app fold_run]. unfold bind. rewrite Hx. reflexivity.
  - cbn [app fold_run] in *. unfold bind in *.
    destruct (body s y w) as [w' [s'|err]]; [|discriminate Hpre].
    exact (IH _ _ _ _ _ _ _ _ Hpre Hx).
Qed.

(** X10.  An exception on one title ends the whole run with that exception:
    the titles behind it are not looked up, and what was counted before
    is not returned. *)
Theorem a_failure_ends_the_run pre title post w w1 m1 w2 e :
  (List.length pre < title_limit)%nat ->
  fold_run citers_of_title [] pre w = (w1, Ok m1) ->
  citers_of_title m1 title w1 = (w2, Raise e) ->
  find_citers_from_titles (pre ++ title :: post) w = (w2, Raise e).
Proof.
  intros Hlen Hpre Htitle. unfold find_citers_from_titles, bind.
  assert (Hcut : firstn title_limit (pre ++ title :: post) =
                 (pre ++ title :: firstn (title_limit - S (List.length pre))
                                        post)%list).
  { rewrite firstn_app.
    rewrite firstn_all2 by lia.
    destruct (title_limit - List.length pre)%nat as [|n] eqn:En; [lia|].
    cbn [firstn]. do 3 f_equal. lia. }
  rewrite Hcut, (fold_run_raises _ _ _ _ _ _ _ _ _ _ Hpre Htitle).
  reflexivity.
Qed.

(** A request that the service refuses is such a failure. *)
Lemma citers_of_title_refused m title w e :
  serpapi (requests w) (api_url title) = Raise e ->
  citers_of_title m title w =
  (mkWorld (stdout w) (requests w ++ [api_url title]) (opened w), Raise e).
Proof.
  intros H. rewrite citers_of_title_stages.
  unfold bind, urlopen_json. rewrite H. reflexivity.
Qed.

(** X11.  Without the credential no follow-up request is ever made: for each
    title the step makes the first request, prints nothing, and either
    passes the title over or raises ([TypeError] as soon as a cited-by
    link is to be rewritten). *)
Theorem no_credential_no_follow_up :
  SERP_API_KEY = None ->
  (forall link, rewrite_link link = Raise TypeError) /\
  (forall m title w,
      exists r,
        citers_of_title m title w =
        (mkWorld (stdout w) (requests w ++ [api_url title]) (opened w), r) /\
        (r = Ok m \/ exists e, r = Raise e)).
Proof.
  intros Hkey.
  assert (Hrw : forall link, rewrite_link link = Raise TypeError).
  { intros link. unfold rewrite_link. rewrite Hkey.
    destruct link; reflexivity. }
  split; [exact Hrw|].
  intros m title w. rewrite citers_of_title_stages.
  unfold bind, urlopen_json, lift, ret.
  destruct (serpapi (requests w) (api_url title)) as [res|err];
    [|eexists; split; [reflexivity|right; eexists; reflexivity]].
  assert (Hf : follow_up_link res = Ok None \/
               exists e, follow_up_link res = Raise e).
  { unfold follow_up_link.
    destruct (py_in "organic_results" res) as [has|e1]; cbn [rbind];
      [|right; eexists; reflexivity].
    destruct (if has then _ else _) as [[|]|e2]; cbn [rbind];
      [|left; reflexivity|right; eexists; reflexivity].
    destruct (rbind (py_getitem res "organic_results") _) as [first|e3];
      cbn [rbind]; [|right; eexists; reflexivity].
    destruct (get_cited_by first) as [cb|e4]; cbn [rbind];
      [|right; eexists; reflexivity].
    destruct (py_truthy cb); [|left; reflexivity].
    destruct (py_getitem cb "serpapi_scholar_link") as [l|e5]; cbn [rbind];
      [|right; eexists; reflexivity].
    rewrite Hrw. right. eexists. reflexivity. }
  destruct Hf as [-> | [e ->]].
  - eexists. split; [reflexivity|left; reflexivity].
  - eexists. split; [reflexivity|right; eexists; reflexivity].
Qed.

(** ** The program from end to end *)

Lemma main_one_argument prog filename w :
  main prog [filename] w =
  (titles <- get_titles_from_bibtex filename ;;
   all_citers_list <- find_citers_from_titles titles ;;
   report (map norm_title titles) all_citers_list) w.
Proof. reflexivity. Qed.

(** X13.  A bibliography that cannot be opened or parsed ends the program with
    the exception of the parser: nothing is printed, no request is made. *)
Theorem unreadable_bibliography prog filename w e :
  pybtex_titles filename = Raise e ->
  main prog [filename] w =
  (mkWorld (stdout w) (requests w) (opened w ++ [filename]), Raise e).
Proof.
  intros H. rewrite main_one_argument.
  unfold bind, get_titles_from_bibtex. rewrite H. reflexivity.
Qed.

Lemma no_titles entries :
  Forall (fun e : option string => e = None) entries ->
  flat_map (fun e => match e with Some t => [t] | None => [] end) entries = [].
Proof.
  induction 1 as [|e entries He _ IH]; [reflexivity|].
  cbn [flat_map]. rewrite He, IH. reflexivity.
Qed.

(** X14.  A bibliography none of whose entries has a title (an empty one, for
    one) gives the header alone, without any request. *)
Theorem bibliography_without_titles prog filename w entries :
  pybtex_titles filename = Ok entries ->
  Forall (fun e => e = None) entries ->
  main prog [filename] w =
  (mkWorld (stdout w ++ [header]) (requests w) (opened w ++ [filename]),
   Ok tt).
Proof.
  intros H Hnone. rewrite main_one_argument.
  unfold bind, get_titles_from_bibtex. rewrite H. cbn [rbind].
  rewrite (no_titles _ Hnone).
  unfold find_citers_from_titles, bind. rewrite firstn_nil.
  reflexivity.
Qed.

(** X15.  The program with one argument, when the aggregator returns: the
    output is what the aggregator printed, then the header, then the rows
    of the entries kept, in rank order; nothing is requested or opened
    after the aggregator has returned. *)
Theorem table_follows_the_run prog filename w entries w1 ranked :
  pybtex_titles filename = Ok entries ->
  let titles :=
    flat_map (fun e => match e with Some t => [t] | None => [] end) entries in
  find_citers_from_titles
    titles (mkWorld (stdout w) (requests w) (opened w ++ [filename])) =
  (w1, Ok ranked) ->
  (forall e, In e ranked -> title_text (snd (snd e)) <> None) ->
  main prog [filename] w =
  (mkWorld (stdout w1 ++ header
                      :: map row_text
                             (filter (kept (map norm_title titles)) ranked))
           (requests w1) (opened w1),
   Ok tt).
Proof.
  intros H titles Hrun Htitles. rewrite main_one_argument.
  unfold bind at 1. unfold get_titles_from_bibtex. rewrite H. cbn [rbind].
  fold titles. unfold bind at 1. rewrite Hrun.
  destruct (find_citers_from_titles_inv _ _ _ _ Hrun) as (w0 & m & _ & Hrank).
  unfold report, bind, print. rewrite for_each_report.
  - cbn [stdout requests opened]. rewrite <- app_assoc. reflexivity.
  - intros e He. split; [|exact (Htitles e He)].
    exact (proj2 (rank_in _ _ _ Hrank He)).
Qed.

(** ** Counting one entry *)




(** ** Titles and URLs *)

Lemma str_app_assoc (a b c : string) : (a ++ b) ++ c = a ++ (b ++ c).
Proof.
  induction a as [|x a IH]; [reflexivity|].
  change ((String x a ++ b) ++ c) with (String x ((a ++ b) ++ c)).
  rewrite IH. reflexivity.
Qed.

Lemma str_map_app f a b : str_map f (a ++ b) = str_map f a ++ str_map f b.
Proof.
  induction a as [|c a IH]; [reflexivity|].
  change (String c a ++ b) with (String c (a ++ b)). cbn [str_map].
  rewrite IH. reflexivity.
Qed.

Lemma str_filter_app f a b :
  str_filter f (a ++ b) = str_filter f a ++ str_filter f b.
Proof.
  induction a as [|c a IH]; [reflexivity|].
  change (String c a ++ b) with (String c (a ++ b)). cbn [str_filter].
  rewrite IH. destruct (f c); reflexivity.
Qed.

Lemma str_filter_length f s :
  (String.length (str_filter f s) <= String.length s)%nat.
Proof.
  induction s as [|c s IH]; cbn [str_filter String.length]; [lia|].
  destruct (f c); cbn [String.length]; lia.
Qed.

Lemma str_map_length f s : String.length (str_map f s) = String.length s.
Proof.
  induction s as [|c s IH]; cbn [str_map String.length]; [reflexivity|].
  rewrite IH. reflexivity.
Qed.

(** X17.  The normal form of a title is put together from the normal forms of
    its parts, and is never longer than the title. *)
Theorem norm_title_of_parts a b :
  norm_title (a ++ b) = norm_title a ++ norm_title b /\
  (String.length (norm_title a) <= String.length a)%nat.
Proof.
  unfold norm_title, re_sub_non09az, lower. split.
  - rewrite str_map_app, str_filter_app. reflexivity.
  - etransitivity; [apply str_filter_length|].
    rewrite str_map_length. apply le_n.
Qed.

Lemma str_forallb_app f a b :
  str_forallb f (a ++ b) = str_forallb f a && str_forallb f b.
Proof.
  induction a as [|c a IH]; [reflexivity|].
  change (String c a ++ b) with (String c (a ++ b)). cbn [str_forallb].
  rewrite IH, andb_assoc. reflexivity.
Qed.

Lemma quote_plus_char_safe c : str_forallb url_safe (quote_plus_char c) = true.
Proof. destruct c as [[] [] [] [] [] [] [] []]; vm_compute; reflexivity. Qed.

Lemma quote_plus_safe s : str_forallb url_safe (quote_plus s) = true.
Proof.
  induction s as [|c s IH]; [reflexivity|].
  cbn [quote_plus]. rewrite str_forallb_app, quote_plus_char_safe, IH.
  reflexivity.
Qed.

Lemma quote_plus_app a b : quote_plus (a ++ b) = quote_plus a ++ quote_plus b.
Proof.
  induction a as [|c a IH]; [reflexivity|].
  change (String c a ++ b) with (String c (a ++ b)). cbn [quote_plus].
  rewrite IH. symmetry. apply str_app_assoc.
Qed.

Lemma str_forallb_impl (f g : ascii -> bool) s :
  (forall c, f c = true -> g c = true) ->
  str_forallb f s = true -> str_forallb g s = true.
Proof.
  intros Hfg. induction s as [|c s IH]; cbn [str_forallb]; [auto|].
  intros H. apply andb_prop in H as [Hc Hs].
  rewrite (Hfg c Hc), (IH Hs). reflexivity.
Qed.

Lemma split_on_whole sep s :
  str_forallb (fun c => negb (Ascii.eqb c sep)) s = true ->
  split_on sep s = [s].
Proof.
  induction s as [|c s IH]; cbn [str_forallb split_on]; [reflexivity|].
  intros H. apply andb_prop in H as [Hc Hs].
  apply negb_true_iff in Hc. rewrite Hc, (IH Hs). reflexivity.
Qed.

Lemma split_on_first sep a b :
  str_forallb (fun c => negb (Ascii.eqb c sep)) a = true ->
  split_on sep (a ++ String sep b) = a :: split_on sep b.
Proof.
  induction a as [|c a IH]; cbn [str_forallb].
  - intros _. cbn [append split_on]. rewrite Ascii.eqb_refl. reflexivity.
  - intros H. apply andb_prop in H as [Hc Hs].
    apply negb_true_iff in Hc.
    change (String c a ++ String sep b) with (String c (a ++ String sep b)).
    cbn [split_on]. rewrite Hc, (IH Hs). reflexivity.
Qed.

Lemma url_safe_not c sep :
  url_safe sep = false -> url_safe c = true -> negb (Ascii.eqb c sep) = true.
Proof.
  intros Hsep Hc. apply negb_true_iff.
  destruct (Ascii.eqb_spec c sep) as [->|]; [congruence|reflexivity].
Qed.

(** X18.  The URL of the first request has exactly three query parameters, the
    credential, the engine and the quoted title, whatever the title holds:
    a quoted string has only unreserved characters, [+] and [%], so a
    title cannot add a parameter or end the query. *)
Theorem api_url_parameters title :
  query_params (api_url title) =
  ["api_key=" ++ quote_plus str_of_key;
   "engine=google_scholar";
   "q=%22" ++ quote_plus title ++ "%22"] /\
  str_forallb url_safe (quote_plus title) = true.
Proof.
  split; [|apply quote_plus_safe].
  assert (Hamp : forall s, str_forallb url_safe s = true ->
                           str_forallb (fun c => negb (Ascii.eqb c "&")) s = true).
  { intros s. apply str_forallb_impl. intros c. apply url_safe_not.
    reflexivity. }
  assert (Hqm : forall s, str_forallb url_safe s = true ->
                          str_forallb (fun c => negb (Ascii.eqb c "?")) s = true).
  { intros s. apply str_forallb_impl. intros c. apply url_safe_not.
    reflexivity. }
  assert (Hq : quote_plus (dquote ++ title ++ dquote) =
               "%22" ++ quote_plus title ++ "%22").
  { rewrite !quote_plus_app. reflexivity. }
  assert (Hurl : api_url title =
                 "https://serpapi.com/search" ++
                 String "?" (("api_key=" ++ quote_plus str_of_key) ++
                             String "&" ("engine=google_scholar" ++
                             String "&" ("q=%22" ++ quote_plus title ++ "%22")))).
  { unfold api_url, urlencode, SERP_API_URL.
    cbn [map String.concat fst snd]. rewrite Hq.
    change (quote_plus "api_key") with "api_key".
    change (quote_plus "engine") with "engine".
    change (quote_plus "google_scholar") with "google_scholar".
    change (quote_plus "q") with "q".
    rewrite !str_app_assoc. reflexivity. }
  rewrite Hurl. unfold query_params.
  rewrite split_on_first by reflexivity.
  assert (Hk : str_forallb url_safe ("api_key" ++ quote_plus str_of_key) = true)
    by (rewrite str_forallb_app, quote_plus_safe; reflexivity).
  assert (Ht : str_forallb url_safe ("%22" ++ quote_plus title ++ "%22") = true).
  { rewrite !str_forallb_app, quote_plus_safe. reflexivity. }
  assert (Hquery :
            split_on "?" (("api_key=" ++ quote_plus str_of_key) ++
                          String "&" ("engine=google_scholar" ++
                          String "&" ("q=%22" ++ quote_plus title ++ "%22"))) =
            [("api_key=" ++ quote_plus str_of_key) ++
             String "&" ("engine=google_scholar" ++
             String "&" ("q=%22" ++ quote_plus title ++ "%22"))]).
  { apply split_on_whole.
    repeat (rewrite !str_forallb_app; cbn [str_forallb]).
    rewrite (Hqm _ (quote_plus_safe str_of_key)),
      (Hqm _ (quote_plus_safe title)).
    reflexivity. }
  rewrite Hquery.
  rewrite split_on_first.
  - rewrite split_on_first by reflexivity.
    rewrite split_on_whole; [reflexivity|].
    change ("q=%22" ++ quote_plus title ++ "%22")
      with ("q=" ++ ("%22" ++ quote_plus title ++ "%22")).
    rewrite str_forallb_app, (Hamp _ Ht). reflexivity.
  - change ("api_key=" ++ quote_plus str_of_key)
      with ("api_key=" ++ quote_plus str_of_key).
    rewrite str_forallb_app, (Hamp _ (quote_plus_safe str_of_key)).
    reflexivity.
Qed.

Lemma scan_dropping_first s :
  first_char (re_sub_q_scan true s) = None \/
  first_char (re_sub_q_scan true s) = Some newline.
Proof.
  induction s as [|c s IH]; cbn [re_sub_q_scan]; [left; reflexivity|].
  destruct (Ascii.eqb_spec c newline) as [->|_]; [right; reflexivity|exact IH].
Qed.

Lemma scan_first d s :
  first_char (re_sub_q_scan false (String d s)) = Some d \/
  first_char (re_sub_q_scan false (String d s)) = None \/
  first_char (re_sub_q_scan false (String d s)) = Some newline.
Proof.
  cbn [re_sub_q_scan]. destruct s as [|d' s]; [left; reflexivity|].
  destruct (Ascii.eqb d "q" && Ascii.eqb d' "="); [|left; reflexivity].
  right. apply scan_dropping_first.
Qed.

Lemma occurs_q_cons c s :
  occurs_q (String c s) =
  match first_char s with
  | Some d => (Ascii.eqb c "q" && Ascii.eqb d "=") || occurs_q s
  | None => false
  end.
Proof. destruct s; reflexivity. Qed.

Lemma scan_leaves_no_q n :
  forall s, (String.length s <= n)%nat ->
            occurs_q (re_sub_q_scan true s) = false /\
            occurs_q (re_sub_q_scan false s) = false.
Proof.
  induction n as [|n IH]; intros s Hlen.
  - destruct s; [split; reflexivity|cbn in Hlen; lia].
  - destruct s as [|c s]; [split; reflexivity|].
    cbn [String.length] in Hlen.
    assert (Hs : (String.length s <= n)%nat) by lia.
    destruct (IH s Hs) as [Hdrop Hscan]. split.
    + cbn [re_sub_q_scan].
      destruct (Ascii.eqb_spec c newline) as [->|_]; [|exact Hdrop].
      rewrite occurs_q_cons.
      destruct (first_char (re_sub_q_scan false s)); [|reflexivity].
      rewrite Hscan. reflexivity.
    + cbn [re_sub_q_scan]. destruct s as [|d s]; [reflexivity|].
      destruct (Ascii.eqb c "q" && Ascii.eqb d "=") eqn:Ecd.
      * cbn [String.length] in Hs.
        apply (IH s). lia.
      * rewrite occurs_q_cons, Hscan.
        destruct (scan_first d s) as [-> | [-> | ->]].
        -- rewrite Ecd. reflexivity.
        -- reflexivity.
        -- rewrite andb_false_r. reflexivity.
Qed.

(** X19.  After the substitution no [q=] is left in the link, so that a second
    substitution changes nothing. *)
Theorem re_sub_q_leaves_no_q s :
  occurs_q (re_sub_q s) = false /\ re_sub_q (re_sub_q s) = re_sub_q s.
Proof.
  assert (H : occurs_q (re_sub_q s) = false)
    by exact (proj2 (scan_leaves_no_q (String.length s) s (le_n _))).
  split; [exact H|]. apply re_sub_q_without_q, H.
Qed.

(** ** Nothing found, nothing normalized *)

Lemma fold_run_nothing_found titles :
  (forall history title,
      exists o, serpapi history (api_url title) = Ok (JObj o) /\
                lookup "organic_results" o = None) ->
  forall m w,
  fold_run citers_of_title m titles w =
  (mkWorld (stdout w) (requests w ++ map api_url titles) (opened w), Ok m).
Proof.
  intros Hnone. induction titles as [|title titles IH]; intros m w.
  - cbn. rewrite app_nil_r. destruct w; reflexivity.
  - cbn [fold_run map]. unfold bind.
    destruct (Hnone (requests w) title) as (o & Hres & Habs).
    rewrite (citers_of_title_passed_over _ _ _ _ Hres
               (follow_up_link_absent _ Habs)).
    rewrite IH. cbn [stdout requests opened].
    rewrite <- app_assoc. reflexivity.
Qed.

(** X12.  When the service has no results for any title, the aggregator makes
    one request per title, in the order of the titles and for the first
    100000 only, prints nothing and returns the empty list. *)
Theorem nothing_found_anywhere titles w :
  (forall history title,
      exists o, serpapi history (api_url title) = Ok (JObj o) /\
                lookup "organic_results" o = None) ->
  find_citers_from_titles titles w =
  (mkWorld (stdout w)
           (requests w ++ map api_url (firstn title_limit titles))
           (opened w),
   Ok []).
Proof.
  intros Hnone. unfold find_citers_from_titles, bind.
  rewrite (fold_run_nothing_found _ Hnone). reflexivity.
Qed.


End Script.

(** ** Runs *)

Lemma no_organic_results_no_entries_run :
  citers_of_title (Some "K") nothing_found no_repr [] "T" empty_world =
  (mkWorld [] [t_url] [], Ok []) /\
  citers_of_title (Some "K") nothing_cites no_repr [] "T" empty_world =
  (mkWorld [cites_link ++ "&api_key=K"] [t_url; cites_link ++ "&api_key=K"] [],
   Ok []).
Proof.
  split.
  - exact (proj1 (no_organic_results_no_entries
                    (Some "K") nothing_found no_repr [] "T" empty_world)
                 [("search_information", JObj [])] eq_refl eq_refl).
  - exact (proj2 (no_organic_results_no_entries
                    (Some "K") nothing_cites no_repr [] "T" empty_world)
                 (hit_with_link cites_link 0) (cites_link ++ "&api_key=K")
                 [("error", JStr "none")] eq_refl eq_refl eq_refl eq_refl).
Defined.

Lemma usage_when_no_argument_run :
  main (Some "K") scenario1 (fun _ => Ok []) no_repr "bib_seer.py" []
       empty_world =
  (mkWorld ["Usage:  bib_seer.py <bibtex_file>"] [] [], Raise (SystemExit 0)) /\
  exit_status
    (snd (main (Some "K") scenario1 (fun _ => Ok []) no_repr "bib_seer.py" []
               empty_world)) = 0.
Proof.
  apply (usage_when_not_one_argument
           (Some "K") scenario1 (fun _ => Ok []) no_repr "bib_seer.py" []
           empty_world).
  cbn. lia.
Defined.

Lemma only_first_100000_titles_run :
  find_citers_from_titles (Some "K") scenario1 no_repr
                          (repeat "T" title_limit ++ ["Attention Is All You Need"]) =
  find_citers_from_titles (Some "K") scenario1 no_repr (repeat "T" title_limit).
Proof.
  apply (proj2 (proj2 (only_first_100000_titles (Some "K") scenario1 no_repr))).
  apply repeat_length.
Defined.





Lemma follow_up_link_rewritten_run :
  rewrite_link (Some "K") (JStr link_with_q) =
  Ok "https://serpapi.com/search.json?cites=1&&api_key=K" /\
  fst (citers_of_title (Some "K") scenario1 no_repr []
                       "Attention Is All You Need" empty_world) =
  mkWorld [cites_link ++ "&api_key=K"]
          [attention_url; cites_link ++ "&api_key=K"] [] /\
  re_sub_q cites_link = cites_link /\
  re_sub_q link_with_q = "https://serpapi.com/search.json?cites=1&".
Proof.
  pose proof (follow_up_link_rewritten (Some "K") scenario1 no_repr "K" eq_refl)
    as (H1 & H2 & H3 & H4).
  split; [|split; [|split]].
  - exact (H1 link_with_q).
  - exact (H2 [] "Attention Is All You Need" empty_world
              [("organic_results",
                JArr [JObj [("title", JStr "Attention Is All You Need");
                            ("inline_links",
                             JObj [("cited_by",
                                    JObj [("total", JNum 2);
                                          ("serpapi_scholar_link",
                                           JStr cites_link)])])]])]
              _ [] _ cites_link eq_refl eq_refl eq_refl eq_refl eq_refl).
  - exact (H3 cites_link eq_refl).
  - exact (H4 "https://serpapi.com/search.json?cites=1&" "x&start=10"
              eq_refl eq_refl).
Defined.

(** C6 does not hold as stated: a parameter that stands behind the
    search term is a parameter of the original link and not of the
    rewritten link. *)
Lemma parameter_after_q_is_lost :
  In "start=10" (query_params link_with_q) /\
  "start=10" <> "q=x" /\
  exists rewritten,
    rewrite_link (Some "K") (JStr link_with_q) = Ok rewritten /\
    ~ In "start=10" (query_params rewritten).
Proof.
  split; [|split].
  - vm_compute. tauto.
  - discriminate.
  - eexists. split; [reflexivity|].
    vm_compute. intros [H|[H|[H|[]]]]; discriminate H.
Qed.

Lemma report_drops_bibliography_titles_run :
  report no_repr (map norm_title ["Attention is all you need"; "FOO!"])
         [(JStr "b.com", (1, paper "b.com" "Bar" (Some 5)));
          (JStr "a.com", (1, paper "a.com" "Foo" None))]
         empty_world =
  (mkWorld [header; "1" ++ tab ++ "5" ++ tab ++ "b.com" ++ tab ++ "Bar"] [] [],
   Ok tt) /\
  (forall e t,
      In e [(JStr "b.com", (1, paper "b.com" "Bar" (Some 5)));
            (JStr "a.com", (1, paper "a.com" "Foo" None))] ->
      title_text (snd (snd e)) = Some t ->
      (kept (map norm_title ["Attention is all you need"; "FOO!"]) e = false <->
       exists bib_title,
         In bib_title ["Attention is all you need"; "FOO!"] /\
         norm_title bib_title = norm_title t)).
Proof.
  apply (report_drops_bibliography_titles
           no_repr ["Attention is all you need"; "FOO!"]
           [(JStr "a.com", (1, paper "a.com" "Foo" None));
            (JStr "b.com", (1, paper "b.com" "Bar" (Some 5)))]
           [(JStr "b.com", (1, paper "b.com" "Bar" (Some 5)));
            (JStr "a.com", (1, paper "a.com" "Foo" None))]
           empty_world).
  - reflexivity.
  - intros e [<-|[<-|[]]]; discriminate.
Defined.

(** C1, where the script departs from it.  Two titles; a paper with two
    million citations cites one of them, a paper without a count cites
    both.  The ranking puts the first paper, with one hit, in front of the
    second, with two hits: the sort key [1e6 * hits + total] lets a total
    of a million or more outweigh a hit, against the comment above the
    sort (hit count first, then total citations). *)
Theorem total_of_a_million_outranks_a_hit :
  let survey := (JStr "a.com", (1, paper "a.com" "Survey" (Some 2000000))) in
  let note := (JStr "b.com", (2, paper "b.com" "Note" None)) in
  snd (find_citers_from_titles (Some "K") two_million no_repr ["T"; "U"]
                               empty_world) = Ok [survey; note] /\
  hits_and_total survey = (1, 2000000) /\
  hits_and_total note = (2, 0) /\
  ~ lex_ge (hits_and_total survey) (hits_and_total note).
Proof.
  cbv zeta. split; [vm_compute; reflexivity|]. split; [reflexivity|].
  split; [reflexivity|].
  unfold lex_ge. cbn. lia.
Qed.

(** C2, where the script departs from it.  One title; the follow-up
    answer lists the link [a.com] twice; its hit count is 2, more than the
    one title, though the report calls the count the number of
    bibliography articles cited. *)
Theorem hit_count_exceeds_titles :
  snd (find_citers_from_titles (Some "K") listed_twice no_repr ["T"]
                               empty_world) =
  Ok [(JStr "a.com", (2, paper "a.com" "Foo (preprint)" None))] /\
  Z.of_nat (List.length ["T"]) < 2.
Proof. split; [vm_compute; reflexivity|cbn; lia]. Qed.

(** ** Two runs from end to end *)

(** One title, two citing papers: each has one hit, and the paper with
    five citations comes first. *)
Example one_title_two_citers :
  snd (find_citers_from_titles (Some "K") scenario1 no_repr
                               ["Attention Is All You Need"] empty_world) =
  Ok [(JStr "b.com", (1, paper "b.com" "Bar" (Some 5)));
      (JStr "a.com", (1, paper "a.com" "Foo" None))].
Proof. vm_compute. reflexivity. Qed.

(** A whole run: the follow-up link is printed first, then the table; the
    cited paper itself is left out, and the entry without a link is listed
    under the key made of its [result_id]. *)
Example whole_run :
  main (Some "K") rediscovered
       (fun _ => Ok [Some "Attention Is All You Need"; None]) no_repr
       "bib_seer.py" ["refs.bib"] empty_world =
  (mkWorld [cites_link ++ "&api_key=K";
            header;
            "1" ++ tab ++ "5" ++ tab ++ "b.com" ++ tab ++ "Bar";
            "1" ++ tab ++ "0" ++ tab ++ "No link found (id: abc123)" ++ tab
                ++ "Qux"]
           [attention_url; cites_link ++ "&api_key=K"]
           ["refs.bib"],
   Ok tt).
Proof. vm_compute. reflexivity. Qed.

(** ** Further runs *)

Lemma rank_stable_descending_run :
  Permutation foo_then_bar bar_then_foo /\
  StronglySorted (fun a b => composite_key b <= composite_key a) bar_then_foo /\
  (forall k,
      filter (fun e => composite_key e =? k) bar_then_foo =
      filter (fun e => composite_key e =? k) foo_then_bar).
Proof.
  apply (rank_stable_descending foo_then_bar bar_then_foo eq_refl).
  intros e [<-|[<-|[]]]; vm_compute; intuition discriminate.
Defined.


Lemma scenario1_pages_distinct history url doc entries :
  scenario1 history url = Ok doc -> page_entries doc = Ok entries ->
  distinct_keys no_repr entries = true.
Proof.
  unfold scenario1, table_service. cbn [lookup].
  destruct (String.eqb attention_url url).
  - intros H Hp. injection H as <-. vm_compute in Hp. injection Hp as <-.
    reflexivity.
  - destruct (String.eqb (cites_link ++ "&api_key=K") url); [|discriminate].
    intros H Hp. injection H as <-. vm_compute in Hp. injection Hp as <-.
    reflexivity.
Qed.

Lemma hit_count_within_titles_run :
  Forall (fun e => fst (snd e)
                   <= Z.of_nat (List.length ["Attention Is All You Need"]))
         bar_then_foo.
Proof.
  apply Forall_forall. intros [k [c p]] Hin.
  apply (hit_count_within_titles
           (Some "K") scenario1 no_repr scenario1_pages_distinct
           ["Attention Is All You Need"] empty_world after_scenario1
           bar_then_foo) with (k := k) (p := p).
  - vm_compute. reflexivity.
  - exact Hin.
Defined.

Lemma hit_counts_are_positive_run :
  Forall (fun e => 1 <= fst (snd e)) bar_then_foo.
Proof.
  apply Forall_forall. intros [k [c p]] Hin.
  apply (hit_counts_are_positive
           (Some "K") scenario1 no_repr
           ["Attention Is All You Need"] empty_world after_scenario1
           bar_then_foo) with (k := k) (p := p).
  - vm_compute. reflexivity.
  - exact Hin.
Defined.

Lemma records_belong_to_their_keys_run :
  Forall (fun e =>
            exists k', entry_key no_repr (snd (snd e)) = Ok k' /\
                       py_hashable k' = true /\
                       (fst e = k' \/ py_key_eqb (fst e) k' = true))
         bar_then_foo.
Proof.
  apply Forall_forall. intros [k [c p]] Hin.
  apply (records_belong_to_their_keys
           (Some "K") scenario1 no_repr
           ["Attention Is All You Need"] empty_world after_scenario1
           bar_then_foo) with (c := c).
  - vm_compute. reflexivity.
  - exact Hin.
Defined.

Lemma keys_stay_and_counts_grow_run :
  (exists added, map fst foo_then_bar = (map fst (@nil (json * (Z * json))) ++ added)%list) /\
  (forall k, hit_count k [] <= hit_count k foo_then_bar).
Proof.
  apply (keys_stay_and_counts_grow
           (Some "K") scenario1 no_repr
           ["Attention Is All You Need"] [] empty_world after_scenario1).
  vm_compute. reflexivity.
Defined.

Lemma a_failure_ends_the_run_run :
  find_citers_from_titles (Some "K") anonymous_entry no_repr
                          ([] ++ "T" :: ["U"; "V"]) empty_world =
  (mkWorld [cites_link ++ "&api_key=K"] [t_url; cites_link ++ "&api_key=K"] [],
   Raise KeyError).
Proof.
  apply (a_failure_ends_the_run
           (Some "K") anonymous_entry no_repr [] "T" ["U"; "V"]
           empty_world empty_world []).
  - unfold title_limit. cbn [List.length]. lia.
  - reflexivity.
  - vm_compute. reflexivity.
Defined.

Lemma no_credential_no_follow_up_run :
  (forall link, rewrite_link None link = Raise TypeError) /\
  (forall m title w,
      exists r,
        citers_of_title None scenario1 no_repr m title w =
        (mkWorld (stdout w) (requests w ++ [api_url None title]) (opened w), r) /\
        (r = Ok m \/ exists e, r = Raise e)).
Proof. exact (no_credential_no_follow_up None scenario1 no_repr eq_refl). Defined.

Lemma unreadable_bibliography_run :
  main (Some "K") scenario1 (fun _ => Raise OSError) no_repr
       "bib_seer.py" ["refs.bib"] empty_world =
  (mkWorld (stdout empty_world) (requests empty_world)
           (opened empty_world ++ ["refs.bib"]),
   Raise OSError).
Proof.
  exact (unreadable_bibliography
           (Some "K") scenario1 (fun _ => Raise OSError) no_repr
           "bib_seer.py" "refs.bib" empty_world OSError eq_refl).
Defined.

Lemma bibliography_without_titles_run :
  main (Some "K") scenario1 (fun _ => Ok [None; None]) no_repr
       "bib_seer.py" ["refs.bib"] empty_world =
  (mkWorld (stdout empty_world ++ [header]) (requests empty_world)
           (opened empty_world ++ ["refs.bib"]),
   Ok tt).
Proof.
  apply (bibliography_without_titles
           (Some "K") scenario1 (fun _ => Ok [None; None]) no_repr
           "bib_seer.py" "refs.bib" empty_world [None; None] eq_refl).
  repeat constructor.
Defined.

Lemma table_follows_the_run_run :
  main (Some "K") rediscovered
       (fun _ => Ok [Some "Attention Is All You Need"; None]) no_repr
       "bib_seer.py" ["refs.bib"] empty_world =
  (mkWorld (stdout after_rediscovered ++ header
              :: map (row_text no_repr)
                     (filter (kept (map norm_title
                                        ["Attention Is All You Need"]))
                             rediscovered_ranked))
           (requests after_rediscovered) (opened after_rediscovered),
   Ok tt).
Proof.
  apply (table_follows_the_run
           (Some "K") rediscovered
           (fun _ => Ok [Some "Attention Is All You Need"; None]) no_repr
           "bib_seer.py" "refs.bib" empty_world
           [Some "Attention Is All You Need"; None]
           after_rediscovered rediscovered_ranked eq_refl).
  - vm_compute. reflexivity.
  - intros e [<-|[<-|[<-|[]]]]; discriminate.
Defined.


Lemma get_cited_by_not_a_mapping_run :
  get_cited_by (JObj [("inline_links", JNull)]) = Raise AttributeError.
Proof.
  apply (get_cited_by_not_a_mapping [("inline_links", JNull)] JNull eq_refl).
  intros inline_links. discriminate.
Defined.

Lemma nothing_found_anywhere_run :
  find_citers_from_titles (Some "K") finds_nothing no_repr ["T"; "U"]
                          empty_world =
  (mkWorld (stdout empty_world)
           (requests empty_world
              ++ map (api_url (Some "K")) (firstn title_limit ["T"; "U"]))
           (opened empty_world),
   Ok []).
Proof.
  apply (nothing_found_anywhere (Some "K") finds_nothing no_repr).
  intros history title. eexists. split; reflexivity.
Defined.

